(** * Text-to-SQL generator: the Streamlit script [main.py]

    A shallow embedding of the script's response clean-up, result display
    and start-up sequence, with the properties stated about them.

    Python [str] values are sequences of Unicode code points; the script's
    calls into Streamlit and into the model and database clients are
    recorded as a trace of events. *)

From Stdlib Require Import ZArith Lia String Ascii.
From stdpp Require Import base list strings pretty gmap.

#[local] Set Warnings "-register-all".

(** ** Python strings *)

Module PyStr.

(** A code point. *)
Definition char := Z.

(** A Python [str]. *)
Definition str := list Z.

(** An ASCII literal as a [str]. *)
Definition lit (s : string) : str :=
  map (fun a => Z.of_N (N_of_ascii a)) (list_ascii_of_string s).

(** [str.isspace] on one code point: the characters [str.strip()]
    removes when called without an argument. *)
Definition isspace (c : char) : bool :=
  ((9 <=? c) && (c <=? 13) || (28 <=? c) && (c <=? 32)
   || (c =? 133) || (c =? 160) || (c =? 5760)
   || (8192 <=? c) && (c <=? 8202)
   || (c =? 8232) || (c =? 8233) || (c =? 8239) || (c =? 8287)
   || (c =? 12288))%Z.

(** Membership in the argument of [strip(chars)]. *)
Definition one_of (chars : str) (c : char) : bool :=
  existsb (Z.eqb c) chars.

Section Strip.
Variable p : char -> bool.

(** [lstrip]: drop the leading characters that satisfy [p]. *)
Fixpoint lstrip_by (s : str) : str :=
  match s with
  | [] => []
  | c :: s' => if p c then lstrip_by s' else s
  end.

(** [rstrip]: the same from the right-hand end. *)
Definition rstrip_by (s : str) : str := rev (lstrip_by (rev s)).

(** [strip]: both ends. *)
Definition strip_by (s : str) : str := rstrip_by (lstrip_by s).

(** The first character, when there is one, does not satisfy [p]. *)
Definition starts_clean (s : str) : bool :=
  match s with
  | [] => true
  | c :: _ => negb (p c)
  end.

(** The same for the last character. *)
Definition ends_clean (s : str) : bool := starts_clean (rev s).
End Strip.

(** [s.strip()] *)
Definition strip (s : str) : str := strip_by isspace s.

(** [s.strip(chars)] and [s.rstrip(chars)] *)
Definition strip_chars (chars s : str) : str := strip_by (one_of chars) s.
Definition rstrip_chars (chars s : str) : str := rstrip_by (one_of chars) s.

(** [s.startswith(prefix)] *)
Fixpoint startswith (s prefix : str) : bool :=
  match prefix, s with
  | [], _ => true
  | _ :: _, [] => false
  | c :: prefix', d :: s' => (c =? d)%Z && startswith s' prefix'
  end.

(** [s[n:]] for [0 <= n] *)
Definition slice_from (n : nat) (s : str) : str := drop n s.

End PyStr.

Import PyStr.

(** ** Cleaning the model's response (main.py, "Clean the SQL query") *)

Definition prefixes_to_remove : list str :=
  [lit "```sql"; lit "```"; lit "SQL Query:"; lit "Query:"].

(** The body of the [for prefix in prefixes_to_remove] loop. *)
Definition remove_prefix (sql_query prefix : str) : str :=
  if startswith sql_query prefix
  then strip (slice_from (length prefix) sql_query)
  else sql_query.

(** The loop: every prefix of the list is tried once, in order, on the
    text the previous iterations left. *)
Definition remove_prefixes (prefixes : list str) (sql_query : str) : str :=
  fold_left remove_prefix prefixes sql_query.

Definition backtick : str := lit "`".
Definition semicolon : str := lit ";".

(** [sql_query.rstrip(';').strip('`').strip()] *)
Definition strip_tail (sql_query : str) : str :=
  strip (strip_chars backtick (rstrip_chars semicolon sql_query)).

(** The whole clean-up, from the raw response to the statement that is
    executed. *)
Definition sanitize (raw : str) : str :=
  strip_tail (remove_prefixes prefixes_to_remove (strip raw)).

(** The prefixes the loop strips from [sql_query], in the order it strips
    them. *)
Fixpoint removed_prefixes (prefixes : list str) (sql_query : str) : list str :=
  match prefixes with
  | [] => []
  | prefix :: rest =>
      if startswith sql_query prefix
      then prefix :: removed_prefixes rest (remove_prefix sql_query prefix)
      else removed_prefixes rest sql_query
  end.

(** Peeling a given sequence of prefixes off a text: each must match when
    its turn comes. *)
Fixpoint peel (prefixes : list str) (sql_query : str) : option str :=
  match prefixes with
  | [] => Some sql_query
  | prefix :: rest =>
      if startswith sql_query prefix
      then peel rest (strip (slice_from (length prefix) sql_query))
      else None
  end.

(** The sanitizer as the specification words it: only the first matching
    prefix is removed. *)
Fixpoint remove_first_prefix (prefixes : list str) (sql_query : str) : str :=
  match prefixes with
  | [] => sql_query
  | prefix :: rest =>
      if startswith sql_query prefix
      then strip (slice_from (length prefix) sql_query)
      else remove_first_prefix rest sql_query
  end.

Definition sanitize_first_only (raw : str) : str :=
  strip_tail (remove_first_prefix prefixes_to_remove (strip raw)).

(** A line feed, and the fenced response of the specification's example. *)
Definition LF : str := [10%Z].

Definition fenced_select_1 : str :=
  lit "```sql" ++ LF ++ lit "SELECT 1```".


(** ** Python values, exceptions and tables *)

(** The values [ast.literal_eval] builds and [db.run] returns. A float
    is kept as the text of its literal; a dict and a set hold their entries
    in the order of iteration. *)
Inductive value :=
| VNone
| VBool (b : bool)
| VInt (n : Z)
| VFloat (literal : str)
| VStr (s : str)
| VBytes (b : list Z)
| VTuple (fields : list value)
| VList (items : list value)
| VDict (items : list (value * value))
| VSet (items : list value).

(** [isinstance(v, tuple)] *)
Definition is_tuple (v : value) : bool :=
  match v with VTuple _ => true | _ => false end.

(** The exception classes the script tells apart, with [str(e)]. *)
Inductive exn :=
| ProgrammingError (msg : str)
| OperationalError (msg : str)
| OtherException (class_name : string) (msg : str).

Definition exn_str (e : exn) : str :=
  match e with
  | ProgrammingError msg | OperationalError msg | OtherException _ msg => msg
  end.

(** What a call gives back: a value, or an exception. *)
Inductive result (A : Type) :=
| Ok (a : A)
| Raise (e : exn).
Arguments Ok {A} a.
Arguments Raise {A} e.

(** [items[i]] on a list *)
Definition getitem (items : list value) (i : nat) : result value :=
  match items !! i with
  | Some v => Ok v
  | None => Raise (OtherException "IndexError" (lit "list index out of range"))
  end.

(** A [pandas.DataFrame] with positional columns: its width and, row by
    row, the objects its cells are made from. pandas converts the cells of a
    column to one type (beside a [None] an integer becomes a float and the
    [None] a NaN); that conversion is not modelled, a cell is known by the
    object it comes from. *)
Record DataFrame := mkDataFrame {
  df_columns : nat;
  df_rows : list (list value)
}.



(** The library functions the script calls, as an interface. *)
Class Libraries := {
  (** [urllib.parse.quote_plus] *)
  quote_plus : str -> str;
  (** [sqlparse.format(sql, reindent=True, keyword_case='upper')] *)
  sqlparse_format : str -> result str;
  (** [ast.literal_eval] *)
  literal_eval : str -> result value;
  (** [pandas.DataFrame(data)] on a list *)
  pd_DataFrame : list value -> result DataFrame;
  (** [st.dataframe(df, use_container_width=True)]: the table is
      serialised for the page, which may raise; it is on the page only when
      that returns. *)
  st_dataframe : DataFrame -> result unit
}.

(** ** The script as a trace of calls *)

(** The [SQLDatabase] object the connection gives. *)
Record SQLDatabase := {
  get_table_info : result str;
  run : str -> result value;
  get_usable_table_names : result (list str)
}.

(** One run of the script sees: the environment (after [load_dotenv()]),
    the state of the three widgets, the database server and the model. *)
Record world := {
  environ : gmap string str;
  selectbox_value : str;
  text_input_value : str;
  button_clicked : bool;
  from_uri : str -> result SQLDatabase;
  chat_model : str -> list str -> result str
}.

(** [os.getenv(name, default)] *)
Definition getenv (w : world) (name : string) (default : str) : str :=
  match environ w !! name with
  | Some v => v
  | None => default
  end.

(** The calls the script makes that are visible from outside it: Streamlit
    elements, and the requests to the database and to the model. *)
Inductive event :=
| StTitle (body : str)
| StHeader (body : str)
| StSubheader (body : str)
| StSelectbox (label : str) (options : list str)
| StTextInput (label : str)
| StButton (label : str)
| StError (body : str)
| StInfo (body : str)
| StWarning (body : str)
| StSuccess (body : str)
| StCode (body : str) (language : option str)
| StSpinner (text : str)
| StDataframe (df : DataFrame)
| StWrite (v : value)
| StText (body : str)
| StExpander (label : str)
| StSidebar
| StStop
| FromUri (uri : str)
| ChatGroq (model api_key : str)
| GetTableInfo
| Invoke (prompt : str) (stop : list str)
| Run (sql : str)
| GetUsableTableNames.

(** How a piece of the script ends: normally, with an exception, or
    in [st.stop()]. *)
Inductive outcome (A : Type) :=
| Returned (a : A)
| Raised (e : exn)
| Stopped.
Arguments Returned {A} a.
Arguments Raised {A} e.
Arguments Stopped {A}.

(** A piece of the script: the events it emits and how it ends. *)
Definition script (A : Type) : Type := list event * outcome A.

Definition trace {A} (m : script A) : list event := fst m.
Definition ending {A} (m : script A) : outcome A := snd m.

#[global] Instance script_ret : MRet script := fun A a => ([], Returned a).

#[global] Instance script_bind : MBind script := fun A B k m =>
  match m with
  | (t, Returned a) => let '(t', o) := k a in (t ++ t', o)
  | (t, Raised e) => (t, Raised e)
  | (t, Stopped) => (t, Stopped)
  end.

(** A Streamlit element, or any call that cannot fail. *)
Definition emit (e : event) : script unit := ([e], Returned tt).

(** A widget: the element, and the value the session holds for it. *)
Definition widget {A} (e : event) (a : A) : script A := ([e], Returned a).

(** A call that is recorded and may raise. *)
Definition call {A} (e : event) (r : result A) : script A :=
  ([e], match r with Ok a => Returned a | Raise x => Raised x end).

(** A library call: not recorded, may raise. *)
Definition lift {A} (r : result A) : script A :=
  ([], match r with Ok a => Returned a | Raise x => Raised x end).

(** [st.stop()] *)
Definition st_stop {A} : script A := ([StStop], Stopped).

(** [try: m  except ...: handler(e)] *)
Definition try_except {A} (m : script A) (handler : exn -> script A)
  : script A :=
  match m with
  | (t, Raised e) => let '(t', o) := handler e in (t ++ t', o)
  | _ => m
  end.

(** [if cond: m] *)
Definition when (cond : bool) (m : script unit) : script unit :=
  if cond then m else mret tt.

(** Truth value of a [str]: [not s] holds of the empty text only. *)
Definition not_ (s : str) : bool :=
  match s with [] => true | _ => false end.

(** ** The texts of the script *)

Definition brain : str := [129504%Z].
Definition cross_mark : str := [10060%Z].
Definition light_bulb : str := [128161%Z].
Definition check_mark : str := [9989%Z].
Definition magnifier : str := [128269%Z].
Definition warning_sign : str := [9888%Z; 65039%Z].
Definition robot : str := [129302%Z].
Definition memo : str := [128221%Z].
Definition high_voltage : str := [9889%Z].
Definition bar_chart : str := [128202%Z].
Definition information : str := [8505%Z; 65039%Z].
Definition clipboard : str := [128203%Z].
Definition bullet : str := [8226%Z].

Definition db_options : list str :=
  [lit "enterprise_saas"; lit "e_commerce"; lit "analytics"].

Definition env_file_help : str :=
  lit "
# Create a .env file in your project root with:
MYSQL_HOST=127.0.0.1
MYSQL_PORT=3306
MYSQL_USER=root
MYSQL_PASSWORD=your_password_here
GROQ_API_KEY=your_groq_api_key_here
    ".

(** The prompt template, cut at its two fields. *)
Definition template_head : str :=
  lit "Based on the table schema below, write a SQL query that would answer the user's question:

IMPORTANT RULES:
- Only provide the SQL query, nothing else
- Provide the SQL query in a single line without line breaks
- Use proper MySQL syntax
- Do not include any explanations or markdown formatting
- Do not include semicolon at the end

Table Schema:
".

Definition template_middle : str :=
  lit "

Question: ".

Definition template_tail : str :=
  lit "

SQL Query:".

(** [prompt]: the template with [{schema}] and [{question}] filled in. *)
Definition prompt (schema question : str) : str :=
  template_head ++ schema ++ template_middle ++ question ++ template_tail.

(** The stop sequences bound to the model. *)
Definition stop_sequences : list str :=
  [LF ++ lit "SQLResult:"; LF ++ LF].

Definition model_name : str := lit "llama-3.3-70b-versatile".

(** ** The script *)

Section Script.
Context {L : Libraries}.

(** The display of the execution result (main.py, "Query Results"). The
    [except:] of the source has no class: it takes every exception of
    its [try] body, those of the parser, of the table builder and of the
    rendering of the table. *)
Definition display_result (result : value) : script unit :=
  match result with
  | VStr text =>
      try_except
        (parsed_result ← lift (literal_eval text);
         match parsed_result with
         | VList items =>
             if decide (length items = 0) then
               emit (StInfo (lit "No results found."))
             else
               first ← lift (getitem items 0);
               if is_tuple first then
                 df ← lift (pd_DataFrame items);
                 lift (st_dataframe df);;
                 emit (StDataframe df)
               else emit (StWrite parsed_result)
         | _ => emit (StWrite parsed_result)
         end)
        (fun _ => emit (StText text))
  | _ => emit (StWrite result)
  end.

Variable w : world.

Definition host : str := getenv w "MYSQL_HOST" (lit "127.0.0.1").
Definition port : str := getenv w "MYSQL_PORT" (lit "3306").
Definition username : str := getenv w "MYSQL_USER" (lit "root").
Definition password : str := getenv w "MYSQL_PASSWORD" [].
Definition groq_api_key : str := getenv w "GROQ_API_KEY" [].

Definition encoded_password : str := quote_plus password.

Definition mysql_uri (database_name : str) : str :=
  lit "mysql+pymysql://" ++ username ++ lit ":" ++ encoded_password
    ++ lit "@" ++ host ++ lit ":" ++ port ++ lit "/" ++ database_name.

(** One call of the cached function is one call of [from_uri]. *)
Definition get_database_connection (database_name : str)
  : script SQLDatabase :=
  call (FromUri (mysql_uri database_name))
       (from_uri w (mysql_uri database_name)).

Definition get_schema (db : SQLDatabase) : script str :=
  call GetTableInfo (get_table_info db).

Definition get_llm : script unit :=
  emit (ChatGroq model_name groq_api_key).

(** [sql_chain.invoke({"question": question})]: the schema is read, the
    prompt is filled in and sent, the text of the answer comes back. *)
Definition sql_chain (db : SQLDatabase) (question : str) : script str :=
  schema ← get_schema db;
  call (Invoke (prompt schema question) stop_sequences)
       (chat_model w (prompt schema question) stop_sequences).

(** The three [except] clauses of the button's [try]. *)
Definition on_exception (e : exn) : script unit :=
  match e with
  | ProgrammingError _ =>
      emit (StError (cross_mark ++ lit " SQL Syntax Error: " ++ exn_str e));;
      emit (StInfo (light_bulb ++ lit " The generated SQL query has syntax errors. Try rephrasing your question."))
  | OperationalError _ =>
      emit (StError (cross_mark ++ lit " Database Error: " ++ exn_str e));;
      emit (StInfo (light_bulb ++ lit " Make sure tables exist in the database."))
  | OtherException _ _ =>
      emit (StError (cross_mark ++ lit " Error: " ++ exn_str e));;
      emit (StInfo (light_bulb ++ lit " Try rephrasing your question or check if the database has tables."))
  end.

(** The [try] body of the button: generate, clean, show, run, display. *)
Definition generate_and_run (db : SQLDatabase) (user_question : str)
  : script unit :=
  raw ← sql_chain db user_question;
  let sql_query := sanitize raw in
  formatted_sql ← lift (sqlparse_format sql_query);
  emit (StSubheader (memo ++ lit " Generated SQL Query:"));;
  emit (StCode formatted_sql (Some (lit "sql")));;
  emit (StSpinner (high_voltage ++ lit " Executing query..."));;
  result ← call (Run sql_query) (run db sql_query);
  emit (StSubheader (bar_chart ++ lit " Query Results:"));;
  display_result result;;
  emit (StSuccess (check_mark ++ lit " Query executed successfully!")).

(** What a click on the button does. *)
Definition on_click (db : SQLDatabase) (user_question : str) : script unit :=
  if not_ (strip user_question) then
    emit (StWarning (warning_sign ++ lit " Please enter a natural language query."))
  else
    emit (StSpinner (robot ++ lit " Generating SQL query..."));;
    try_except (generate_and_run db user_question) on_exception.

(** The side bar. *)
Definition sidebar (db : SQLDatabase) : script unit :=
  emit StSidebar;;
  emit (StHeader (information ++ lit " Information"));;
  emit (StWrite (VStr (lit "**How to use:**")));;
  emit (StWrite (VStr (lit "1. Select a database schema")));;
  emit (StWrite (VStr (lit "2. Enter your question in plain English")));;
  emit (StWrite (VStr (lit "3. Click 'Generate SQL and Run'")));;
  emit (StWrite (VStr (lit "---")));;
  emit (StWrite (VStr (lit "**Example queries:**")));;
  emit (StCode (lit "How many customers are in the database?") (Some (lit "text")));;
  emit (StCode (lit "What is the total revenue?") (Some (lit "text")));;
  emit (StCode (lit "Show top 5 products by sales") (Some (lit "text")));;
  emit (StWrite (VStr (lit "---")));;
  emit (StWrite (VStr (lit "**Database Info:**")));;
  try_except
    (tables ← call GetUsableTableNames (get_usable_table_names db);
     match tables with
     | [] =>
         emit (StWarning (warning_sign ++ lit " No tables found in this database"));;
         emit (StInfo (lit "You need to import data into the database first"))
     | _ =>
         emit (StWrite (VStr (clipboard ++ lit " Available tables: "
                                ++ lit (pretty (length tables)))));;
         emit (StExpander (lit "View table names"));;
         (_ ← mapM (fun table => emit (StWrite (VStr (bullet ++ lit " " ++ table))))
                   tables;
          mret tt)
     end)
    (fun _ => emit (StWrite (VStr (lit "Connect to a database to see tables")))).

(** The whole script, top to bottom, for one run. *)
Definition main : script unit :=
  emit (StTitle (brain ++ lit " Text_to_SQL"));;
  emit (StSubheader (lit "This application can connect to all tables in the selected database and generate required queries"));;
  selected_db ← widget (StSelectbox (lit "Choose a database schema") db_options)
                       (selectbox_value w);
  user_question ← widget (StTextInput (lit "Enter your natural language query"))
                         (text_input_value w);
  when (not_ password)
    (emit (StError (cross_mark ++ lit " MYSQL_PASSWORD not found in environment variables"));;
     emit (StInfo (light_bulb ++ lit " Create a .env file with your MySQL password"));;
     emit (StCode env_file_help None);;
     st_stop);;
  when (not_ groq_api_key)
    (emit (StError (cross_mark ++ lit " GROQ_API_KEY not found in environment variables"));;
     emit (StInfo (light_bulb ++ lit " Add GROQ_API_KEY to your .env file"));;
     st_stop);;
  db ← try_except
         (db ← get_database_connection selected_db;
          emit (StSuccess (check_mark ++ lit " Connected to database: " ++ selected_db));;
          mret db)
         (fun e =>
            emit (StError (cross_mark ++ lit " Failed to connect to database: " ++ exn_str e));;
            emit (StInfo (light_bulb ++ lit " Check your .env file and make sure MySQL is running"));;
            st_stop);
  get_llm;;
  clicked ← widget (StButton (magnifier ++ lit " Generate SQL and Run"))
                   (button_clicked w);
  when clicked (on_click db user_question);;
  sidebar db.
End Script.

(** ** Reference models of the libraries

    Executable models of the four library functions on the inputs a driver
    result and a statement are made of. The properties below are stated
    for every [Libraries]; these models instantiate them. *)

Module Reference.

(** *** [ast.literal_eval] on the literals a result set is written with:
    decimal integers, quoted texts without escapes or prefixes, [None],
    [True], [False], tuples and lists, with blanks between them. This model
    reports every other text as a syntax error, also the literals of Python
    that are outside this fragment. *)

Definition syntax_error {A} : result A :=
  Raise (OtherException "SyntaxError" (lit "invalid syntax")).

Definition is_blank (c : char) : bool := ((c =? 32) || (c =? 9))%Z.
Definition is_digit (c : char) : bool := ((48 <=? c) && (c <=? 57))%Z.

Definition skip_blanks (s : str) : str := lstrip_by is_blank s.

(** The digits at the head of [s], and what follows them. *)
Fixpoint span_digits (s : str) : str * str :=
  match s with
  | c :: s' =>
      if is_digit c then let '(ds, r) := span_digits s' in (c :: ds, r)
      else ([], s)
  | [] => ([], [])
  end.

Definition digits_value (ds : str) : Z :=
  fold_left (fun acc d => acc * 10 + (d - 48))%Z ds 0%Z.

(** A decimal integer has no leading zero, unless it is all zeros. *)
Definition well_formed_digits (ds : str) : bool :=
  match ds with
  | [] => false
  | 48%Z :: _ :: _ => forallb (Z.eqb 48) ds
  | _ => true
  end.

(** The text up to the closing [quote]; a backslash is outside the
    fragment. *)
Fixpoint span_quoted (quote : char) (s : str) : option (str * str) :=
  match s with
  | [] => None
  | c :: s' =>
      if (c =? quote)%Z then Some ([], s')
      else if ((c =? 92) || (c =? 10))%Z then None
      else match span_quoted quote s' with
           | Some (body, r) => Some (c :: body, r)
           | None => None
           end
  end.

(** The elements of a display up to [close]: the elements, whether a comma
    was read, and the rest. *)
Fixpoint parse_items (n : nat) (element : str -> option (value * str))
    (close : char) (s : str) : option (list value * bool * str) :=
  match n with
  | O => None
  | S n' =>
      match skip_blanks s with
      | [] => None
      | c :: r =>
          if (c =? close)%Z then Some ([], false, r)
          else
            match element (c :: r) with
            | None => None
            | Some (v, s1) =>
                match skip_blanks s1 with
                | [] => None
                | d :: r1 =>
                    if (d =? 44)%Z then
                      match parse_items n' element close r1 with
                      | Some (vs, _, r2) => Some (v :: vs, true, r2)
                      | None => None
                      end
                    else if (d =? close)%Z then Some ([v], false, r1)
                    else None
                end
            end
      end
  end.

Definition keyword (word : string) (v : value) (s : str)
  : option (value * str) :=
  if startswith s (lit word)
  then Some (v, drop (String.length word) s)
  else None.

Fixpoint parse_value (fuel : nat) (s : str) : option (value * str) :=
  match fuel with
  | O => None
  | S fuel' =>
      match skip_blanks s with
      | [] => None
      | c :: r =>
          if (c =? 91)%Z then
            match parse_items (S (length r)) (parse_value fuel') 93%Z r with
            | Some (vs, _, r') => Some (VList vs, r')
            | None => None
            end
          else if (c =? 40)%Z then
            match parse_items (S (length r)) (parse_value fuel') 41%Z r with
            | Some ([v], false, r') => Some (v, r')
            | Some (vs, _, r') => Some (VTuple vs, r')
            | None => None
            end
          else if ((c =? 39) || (c =? 34))%Z then
            match span_quoted c r with
            | Some (body, r') => Some (VStr body, r')
            | None => None
            end
          else if (c =? 45)%Z then
            let '(ds, r') := span_digits (skip_blanks r) in
            if well_formed_digits ds
            then Some (VInt (- digits_value ds), r') else None
          else if is_digit c then
            let '(ds, r') := span_digits (c :: r) in
            if well_formed_digits ds
            then Some (VInt (digits_value ds), r') else None
          else
            match keyword "None" VNone (c :: r) with
            | Some x => Some x
            | None =>
                match keyword "True" (VBool true) (c :: r) with
                | Some x => Some x
                | None => keyword "False" (VBool false) (c :: r)
                end
            end
      end
  end.

Definition literal_eval (s : str) : result value :=
  match parse_value (S (length s)) s with
  | Some (v, r) =>
      match skip_blanks r with
      | [] => Ok v
      | _ => syntax_error
      end
  | None => syntax_error
  end.

(** *** [pandas.DataFrame] on a list whose first element is a tuple: every
    element is read as a row, a row needs a length, the width is that of
    the longest row, and a cell with no field behind it, in a short row, is
    given as [None]. *)

Definition type_error {A} (type_name : string) : result A :=
  Raise (OtherException "TypeError"
           (lit "object of type '" ++ lit type_name ++ lit "' has no len()")).

Definition row_of (v : value) : result (list value) :=
  match v with
  | VTuple fields => Ok fields
  | VList items => Ok items
  | VSet items => Ok items
  | VDict items => Ok (map fst items)
  | VStr s => Ok (map (fun c => VStr [c]) s)
  | VBytes b => Ok (map VInt b)
  | VNone => Ok [VNone]
  | VBool _ => type_error "bool"
  | VInt _ => type_error "int"
  | VFloat _ => type_error "float"
  end.

Fixpoint rows_of (data : list value) : result (list (list value)) :=
  match data with
  | [] => Ok []
  | v :: rest =>
      match row_of v with
      | Raise e => Raise e
      | Ok row =>
          match rows_of rest with
          | Raise e => Raise e
          | Ok rows => Ok (row :: rows)
          end
      end
  end.

Definition width (rows : list (list value)) : nat :=
  foldr (fun row k => Nat.max (length row) k) 0 rows.

Definition fill (k : nat) (row : list value) : list value :=
  row ++ replicate (k - length row) VNone.

Definition pd_DataFrame (data : list value) : result DataFrame :=
  match rows_of data with
  | Raise e => Raise e
  | Ok rows => Ok (mkDataFrame (width rows) (map (fill (width rows)) rows))
  end.

(** *** [quote_plus]: letters, digits and [_.-~] stay, a space becomes
    [+], every other character is the [%XX] of its UTF-8 bytes. *)

Definition is_unreserved (c : char) : bool :=
  ((65 <=? c) && (c <=? 90) || (97 <=? c) && (c <=? 122)
   || (48 <=? c) && (c <=? 57)
   || (c =? 95) || (c =? 46) || (c =? 45) || (c =? 126))%Z.

Definition utf8 (c : char) : list Z :=
  (if c <? 128 then [c]
   else if c <? 2048 then [192 + c / 64; 128 + c mod 64]
   else if c <? 65536 then
     [224 + c / 4096; 128 + (c / 64) mod 64; 128 + c mod 64]
   else
     [240 + c / 262144; 128 + (c / 4096) mod 64;
      128 + (c / 64) mod 64; 128 + c mod 64])%Z.

Definition hex_digit (n : Z) : char :=
  (if n <? 10 then 48 + n else 55 + n)%Z.

Definition percent (byte : Z) : str :=
  [37; hex_digit (byte / 16); hex_digit (byte mod 16)]%Z.

Definition quote_plus (s : str) : str :=
  flat_map (fun c =>
    if is_unreserved c then [c]
    else if (c =? 32)%Z then [43%Z]
    else flat_map percent (utf8 c)) s.

(** *** A stand-in for [sqlparse.format] on one-line statements whose
    words are all keywords: the letters in upper case. *)

Definition upper (c : char) : char :=
  (if (97 <=? c) && (c <=? 122) then c - 32 else c)%Z.

Definition sqlparse_format (sql : str) : result str := Ok (map upper sql).

(** *** [st.dataframe]: the serialisation of the table raises on an
    integer that fits no 64-bit column, and renders the table otherwise. The
    model is exact on tables whose integers fit a signed 64-bit column, and
    on tables with an integer of more than 64 bits. *)

Definition fits_64_bits (v : value) : bool :=
  match v with
  | VInt n => ((- 2 ^ 63 <=? n) && (n <? 2 ^ 64))%Z
  | _ => true
  end.

Definition st_dataframe (df : DataFrame) : result unit :=
  if forallb (forallb fits_64_bits) (df_rows df) then Ok tt
  else Raise (OtherException "OverflowError"
                (lit "Python int too large to convert to C long")).

Definition libraries : Libraries :=
  Build_Libraries quote_plus sqlparse_format literal_eval pd_DataFrame
    st_dataframe.

End Reference.

(** ** Vocabulary of the properties *)

(** A text the clean-up has nothing left to take from: it opens with
    neither label, does not end in a semicolon, and has no backtick at
    either end. *)
Definition settled (t : str) : bool :=
  starts_clean (one_of backtick) t
  && ends_clean (one_of backtick) t
  && ends_clean (one_of semicolon) t
  && negb (startswith t (lit "SQL Query:"))
  && negb (startswith t (lit "Query:")).

(** Responses with more than one wrapper. *)
Definition two_labels : str := lit "SQL Query: Query: SELECT 1".
Definition labels_swapped : str := lit "Query: SQL Query: SELECT 1".
Definition semicolon_inside_backtick : str := lit "SELECT 1;`".
Definition spaced_backticks : str := lit "` `a`".

Definition no_records : str := lit "[]".
Definition decimal_record : str := lit "[(Decimal('12.50'),)]".
Definition record_then_number : str := lit "[(1, 2), 3]".


(** What the display does with a list that goes to the table builder:
    the table when it is built and rendered, the raw text when either
    raises. *)
Definition table_or_text (L : Libraries) (text : str) (data : list value)
  : script unit :=
  match pd_DataFrame data with
  | Ok df =>
      match st_dataframe df with
      | Ok _ => ([StDataframe df], Returned tt)
      | Raise _ => ([StText text], Returned tt)
      end
  | Raise _ => ([StText text], Returned tt)
  end.
Definition two_numbers : str := lit "[1, 2]".

(** The elements every run starts with: the title, the sub-header, the
    schema selector and the question field. *)
Definition preamble : list event :=
  [StTitle (brain ++ lit " Text_to_SQL");
   StSubheader (lit "This application can connect to all tables in the selected database and generate required queries");
   StSelectbox (lit "Choose a database schema") db_options;
   StTextInput (lit "Enter your natural language query")].

(** What follows them when the password, or the API key, is not set. *)
Definition password_missing : list event :=
  [StError (cross_mark ++ lit " MYSQL_PASSWORD not found in environment variables");
   StInfo (light_bulb ++ lit " Create a .env file with your MySQL password");
   StCode env_file_help None;
   StStop].

Definition api_key_missing : list event :=
  [StError (cross_mark ++ lit " GROQ_API_KEY not found in environment variables");
   StInfo (light_bulb ++ lit " Add GROQ_API_KEY to your .env file");
   StStop].

(** What follows them when the connection fails, and when it is made. *)
Definition connection_failed (uri : str) (e : exn) : list event :=
  [FromUri uri;
   StError (cross_mark ++ lit " Failed to connect to database: " ++ exn_str e);
   StInfo (light_bulb ++ lit " Check your .env file and make sure MySQL is running");
   StStop].

Definition trigger_button : event :=
  StButton (magnifier ++ lit " Generate SQL and Run").

Definition connected (uri selected_db api_key : str) : list event :=
  [FromUri uri;
   StSuccess (check_mark ++ lit " Connected to database: " ++ selected_db);
   ChatGroq model_name api_key;
   trigger_button].

Definition blank_question_warning : event :=
  StWarning (warning_sign ++ lit " Please enter a natural language query.").

(** The requests that generate a query or execute one: reading the schema
    for the prompt, calling the model, running a statement. *)
Definition is_query (e : event) : bool :=
  match e with
  | GetTableInfo | Invoke _ _ | Run _ => true
  | _ => false
  end.

(** The requests that use a credential: the connection, made with the
    password, and the model client, made with the API key. *)
Definition uses_credential (e : event) : bool :=
  match e with
  | FromUri _ | ChatGroq _ _ => true
  | _ => false
  end.

(** What holds of every element outside the [try] body of the button: it
    neither generates nor runs a query, and is not the display of a
    statement. *)
Definition bystander (e : event) : Prop :=
  is_query e = false
  /\ forall body, e <> StCode body (Some (lit "sql")).

Ltac solve_bystander :=
  repeat split; try done;
  let H := fresh in
  let Hl := fresh in
  intros ? H; injection H as _ Hl; vm_compute in Hl; discriminate Hl.

(** The elements of the button's block. *)
Definition generating : event :=
  StSpinner (robot ++ lit " Generating SQL query...").
Definition generated_header : event :=
  StSubheader (memo ++ lit " Generated SQL Query:").
Definition executing : event :=
  StSpinner (high_voltage ++ lit " Executing query...").
Definition results_header : event :=
  StSubheader (bar_chart ++ lit " Query Results:").
Definition executed : event :=
  StSuccess (check_mark ++ lit " Query executed successfully!").

(** The block up to the execution of [sql_query]. *)
Definition shown_and_run (request : event) (formatted_sql sql_query : str)
  : list event :=
  [GetTableInfo; request; generated_header;
   StCode formatted_sql (Some (lit "sql")); executing; Run sql_query].

(** An environment variable is absent. *)
Definition absent (w : world) (name : string) : Prop :=
  environ w !! name = None.

(** Worlds for the examples: nothing set and nothing reachable; and a
    server with one table and a model that answers with a label. *)
Definition unreachable {A} : result A :=
  Raise (OperationalError (lit "(2003, 'Can not connect to MySQL server')")).

Definition bare_world : world := {|
  environ := ∅;
  selectbox_value := lit "enterprise_saas";
  text_input_value := [];
  button_clicked := false;
  from_uri := fun _ => unreachable;
  chat_model := fun _ _ => unreachable
|}.

Definition demo_db : SQLDatabase := {|
  get_table_info := Ok (lit "CREATE TABLE customers (id INTEGER)");
  run := fun _ => Ok (VStr (lit "[(1,)]"));
  get_usable_table_names := Ok [lit "customers"]
|}.

Definition demo_world (question : str) : world := {|
  environ := {[ "MYSQL_PASSWORD" := lit "s3cret pass";
                "GROQ_API_KEY" := lit "gsk_demo" ]};
  selectbox_value := lit "analytics";
  text_input_value := question;
  button_clicked := true;
  from_uri := fun _ => Ok demo_db;
  chat_model := fun _ _ => Ok (lit "SQL Query: select 1;")
|}.

Definition blank_question : str := lit "   ".
Definition count_question : str := lit "How many customers are in the database?".

(** [t] is a contiguous piece of [s]. *)
Definition piece_of (t s : str) : Prop := exists a b, s = a ++ t ++ b.

(** The number of occurrences of a character in a text. *)
Definition count_char (c : char) (s : str) : nat :=
  length (List.filter (Z.eqb c) s).

(** A response whose statement ends in a semicolon inside the fence. *)
Definition fenced_with_semicolon : str :=
  lit "```sql" ++ LF ++ lit "SELECT 1;" ++ LF ++ lit "```".

(** Any character but the backtick. *)
Definition not_backtick (c : char) : bool := negb (c =? 96)%Z.

(** The four elements the display of a result is made of. *)
Definition is_display_element (e : event) : bool :=
  match e with
  | StInfo _ | StDataframe _ | StWrite _ | StText _ => true
  | _ => false
  end.

(** The three requests of the button's block, one by one, and how often a
    kind of event occurs in a trace. *)
Definition is_get_table_info (e : event) : bool :=
  match e with GetTableInfo => true | _ => false end.
Definition is_invoke (e : event) : bool :=
  match e with Invoke _ _ => true | _ => false end.
Definition is_run (e : event) : bool :=
  match e with Run _ => true | _ => false end.

Definition count_event (f : event -> bool) (t : list event) : nat :=
  length (List.filter f t).

(** The fixed part of the side bar, up to the request for the table
    names. *)
Definition sidebar_help : list event :=
  [StSidebar;
   StHeader (information ++ lit " Information");
   StWrite (VStr (lit "**How to use:**"));
   StWrite (VStr (lit "1. Select a database schema"));
   StWrite (VStr (lit "2. Enter your question in plain English"));
   StWrite (VStr (lit "3. Click 'Generate SQL and Run'"));
   StWrite (VStr (lit "---"));
   StWrite (VStr (lit "**Example queries:**"));
   StCode (lit "How many customers are in the database?") (Some (lit "text"));
   StCode (lit "What is the total revenue?") (Some (lit "text"));
   StCode (lit "Show top 5 products by sales") (Some (lit "text"));
   StWrite (VStr (lit "---"));
   StWrite (VStr (lit "**Database Info:**"));
   GetUsableTableNames].

(** The line of the side bar for one table. *)
Definition table_line (table : str) : event :=
  StWrite (VStr (bullet ++ lit " " ++ table)).

(** What the side bar shows for the answer to that request. *)
Definition sidebar_tables (answer : result (list str)) : list event :=
  match answer with
  | Ok [] =>
      [StWarning (warning_sign ++ lit " No tables found in this database");
       StInfo (lit "You need to import data into the database first")]
  | Ok tables =>
      StWrite (VStr (clipboard ++ lit " Available tables: "
                       ++ lit (pretty (length tables))))
      :: StExpander (lit "View table names")
      :: map table_line tables
  | Raise _ => [StWrite (VStr (lit "Connect to a database to see tables"))]
  end.

(** More worlds for the examples: the credentials set and the server
    down; a server that rejects every statement; a model that answers with
    white space only. *)
Definition offline_world : world := {|
  environ := {[ "MYSQL_PASSWORD" := lit "s3cret pass";
                "GROQ_API_KEY" := lit "gsk_demo" ]};
  selectbox_value := lit "e_commerce";
  text_input_value := count_question;
  button_clicked := true;
  from_uri := fun _ => unreachable;
  chat_model := fun _ _ => unreachable
|}.

Definition rejecting_db : SQLDatabase := {|
  get_table_info := Ok (lit "CREATE TABLE customers (id INTEGER)");
  run := fun _ => Raise (ProgrammingError (lit "(1064, 'You have an error in your SQL syntax')"));
  get_usable_table_names := Raise (OperationalError (lit "(2013, 'Lost connection')"))
|}.

Definition rejecting_world : world := {|
  environ := {[ "MYSQL_PASSWORD" := lit "s3cret pass";
                "GROQ_API_KEY" := lit "gsk_demo" ]};
  selectbox_value := lit "analytics";
  text_input_value := count_question;
  button_clicked := true;
  from_uri := fun _ => Ok rejecting_db;
  chat_model := fun _ _ => Ok (lit "SELEC 1")
|}.

Definition blank_answer_world : world := {|
  environ := {[ "MYSQL_PASSWORD" := lit "s3cret pass";
                "GROQ_API_KEY" := lit "gsk_demo" ]};
  selectbox_value := lit "analytics";
  text_input_value := count_question;
  button_clicked := true;
  from_uri := fun _ => Ok demo_db;
  chat_model := fun _ _ => Ok (lit "  ")
|}.

(** A line of the side bar that names a table: a written text that opens
    with the bullet. *)
Definition is_table_line (e : event) : bool :=
  match e with
  | StWrite (VStr (c :: _)) => (c =? 8226)%Z
  | _ => false
  end.

(** ** Facts about [strip] *)

Section StripFacts.
Variable p : char -> bool.

Lemma lstrip_by_clean (s : str) :
  starts_clean p s = true -> lstrip_by p s = s.
Proof.
  destruct s as [|c s]; simpl; [done|].
  by destruct (p c).
Qed.

Lemma starts_clean_lstrip_by (s : str) :
  starts_clean p (lstrip_by p s) = true.
Proof.
  induction s as [|c s IH]; simpl; [done|].
  destruct (p c) eqn:Hc; [done|].
  simpl. by rewrite Hc.
Qed.

Lemma lstrip_by_suffix (s : str) : exists k, s = k ++ lstrip_by p s.
Proof.
  induction s as [|c s [k Hk]]; simpl.
  - by exists [].
  - destruct (p c).
    + exists (c :: k). simpl. by rewrite <- Hk.
    + by exists [].
Qed.

Lemma length_lstrip_by (s : str) : length (lstrip_by p s) <= length s.
Proof.
  destruct (lstrip_by_suffix s) as [k Hk].
  rewrite Hk at 2. rewrite length_app. lia.
Qed.

Lemma length_lstrip_by_lt (s : str) :
  starts_clean p s = false -> length (lstrip_by p s) < length s.
Proof.
  destruct s as [|c s]; simpl; [done|].
  destruct (p c); [|done].
  intros _. pose proof (length_lstrip_by s). lia.
Qed.

Lemma rstrip_by_clean (s : str) :
  ends_clean p s = true -> rstrip_by p s = s.
Proof.
  unfold ends_clean, rstrip_by. intros H.
  rewrite lstrip_by_clean by done. apply rev_involutive.
Qed.

Lemma ends_clean_rstrip_by (s : str) :
  ends_clean p (rstrip_by p s) = true.
Proof.
  unfold ends_clean, rstrip_by. rewrite rev_involutive.
  apply starts_clean_lstrip_by.
Qed.

Lemma rstrip_by_prefix (s : str) : exists k, s = rstrip_by p s ++ k.
Proof.
  destruct (lstrip_by_suffix (rev s)) as [k Hk].
  exists (rev k). unfold rstrip_by.
  by rewrite <- rev_app_distr, <- Hk, rev_involutive.
Qed.

Lemma length_rstrip_by (s : str) : length (rstrip_by p s) <= length s.
Proof.
  unfold rstrip_by. rewrite length_rev.
  pose proof (length_lstrip_by (rev s)) as H.
  by rewrite length_rev in H.
Qed.

Lemma length_rstrip_by_lt (s : str) :
  ends_clean p s = false -> length (rstrip_by p s) < length s.
Proof.
  unfold ends_clean, rstrip_by. intros H.
  apply length_lstrip_by_lt in H.
  by rewrite !length_rev in *.
Qed.

Lemma starts_clean_rstrip_by (s : str) :
  starts_clean p s = true -> starts_clean p (rstrip_by p s) = true.
Proof.
  destruct (rstrip_by_prefix s) as [k Hk]. intros H.
  destruct (rstrip_by p s) as [|c r]; [done|].
  rewrite Hk in H. exact H.
Qed.

Lemma starts_clean_strip_by (s : str) :
  starts_clean p (strip_by p s) = true.
Proof.
  apply starts_clean_rstrip_by, starts_clean_lstrip_by.
Qed.

Lemma ends_clean_strip_by (s : str) :
  ends_clean p (strip_by p s) = true.
Proof. apply ends_clean_rstrip_by. Qed.

Lemma strip_by_clean (s : str) :
  starts_clean p s = true -> ends_clean p s = true -> strip_by p s = s.
Proof.
  intros Hs He. unfold strip_by.
  rewrite lstrip_by_clean by done. by apply rstrip_by_clean.
Qed.

Lemma length_strip_by (s : str) : length (strip_by p s) <= length s.
Proof.
  unfold strip_by.
  pose proof (length_rstrip_by (lstrip_by p s)).
  pose proof (length_lstrip_by s). lia.
Qed.

Lemma length_strip_by_lt (s : str) :
  starts_clean p s && ends_clean p s = false ->
  length (strip_by p s) < length s.
Proof.
  intros H. unfold strip_by.
  destruct (starts_clean p s) eqn:Hs.
  - rewrite lstrip_by_clean by done.
    apply length_rstrip_by_lt. exact H.
  - pose proof (length_rstrip_by (lstrip_by p s)).
    pose proof (length_lstrip_by_lt s Hs). lia.
Qed.

(** A text made of characters to strip only is stripped to nothing, and
    no other text is. *)
Lemma lstrip_by_all (s : str) : forallb p s = true -> lstrip_by p s = [].
Proof.
  induction s as [|c s IH]; simpl; [done|].
  destruct (p c); [exact IH|done].
Qed.

Lemma lstrip_by_nil (s : str) : lstrip_by p s = [] -> forallb p s = true.
Proof.
  induction s as [|c s IH]; simpl; [done|].
  destruct (p c); [exact IH|done].
Qed.

Lemma strip_by_nil_iff (s : str) :
  strip_by p s = [] <-> forallb p s = true.
Proof.
  unfold strip_by, rstrip_by. split.
  - intros H. apply lstrip_by_nil.
    apply (f_equal (@rev Z)) in H. rewrite rev_involutive in H. simpl in H.
    pose proof (starts_clean_lstrip_by (rev (lstrip_by p s))) as Hc.
    rewrite H in Hc. unfold starts_clean in Hc.
    destruct (lstrip_by p s) as [|c r] eqn:Hs; [done|].
    pose proof (starts_clean_lstrip_by s) as Hc'. rewrite Hs in Hc'.
    simpl in *. destruct (rev r ++ [c]) as [|d k] eqn:Hr.
    { by destruct (rev r). }
    apply lstrip_by_nil in H. rewrite <- Hr in H.
    rewrite forallb_app in H. simpl in H.
    destruct (p c); [done|]. by rewrite andb_false_r in H.
  - intros H. by rewrite (lstrip_by_all s H).
Qed.

(** Stripping twice is stripping once. *)
Lemma strip_by_idemp (s : str) : strip_by p (strip_by p s) = strip_by p s.
Proof.
  apply strip_by_clean;
    [apply starts_clean_strip_by | apply ends_clean_strip_by].
Qed.
End StripFacts.

(** ** Facts about the clean-up *)

Lemma startswith_nonempty (s prefix : str) :
  prefix <> [] -> startswith s prefix = true -> s <> [].
Proof. by destruct prefix, s. Qed.

Lemma remove_prefix_unmatched (s prefix : str) :
  startswith s prefix = false -> remove_prefix s prefix = s.
Proof. unfold remove_prefix. by intros ->. Qed.

Lemma length_remove_prefix (s prefix : str) :
  length (remove_prefix s prefix) <= length s.
Proof.
  unfold remove_prefix, slice_from, strip.
  destruct (startswith s prefix); [|done].
  pose proof (length_strip_by isspace (drop (length prefix) s)).
  rewrite length_drop in *. lia.
Qed.

Lemma length_remove_prefix_lt (s prefix : str) :
  prefix <> [] -> startswith s prefix = true ->
  length (remove_prefix s prefix) < length s.
Proof.
  intros Hp Hs. pose proof (startswith_nonempty _ _ Hp Hs) as Hne.
  unfold remove_prefix, slice_from, strip. rewrite Hs.
  pose proof (length_strip_by isspace (drop (length prefix) s)).
  rewrite length_drop in *.
  destruct prefix; [done|]. destruct s; [done|]. simpl in *. lia.
Qed.

Lemma length_remove_prefixes (prefixes : list str) (s : str) :
  length (remove_prefixes prefixes s) <= length s.
Proof.
  revert s. induction prefixes as [|prefix rest IH]; intros s; simpl; [done|].
  pose proof (IH (remove_prefix s prefix)).
  pose proof (length_remove_prefix s prefix).
  unfold remove_prefixes in *. lia.
Qed.

(** The loop leaves the text as it is, or shortens it. *)
Lemma remove_prefixes_same_or_shorter (prefixes : list str) (s : str) :
  Forall (fun prefix => prefix <> []) prefixes ->
  remove_prefixes prefixes s = s
  \/ length (remove_prefixes prefixes s) < length s.
Proof.
  intros Hne. revert s.
  induction Hne as [|prefix rest Hp _ IH]; intros s; [by left|].
  change (remove_prefixes (prefix :: rest) s)
    with (remove_prefixes rest (remove_prefix s prefix)).
  destruct (startswith s prefix) eqn:Hs.
  - right. pose proof (length_remove_prefix_lt s prefix Hp Hs).
    pose proof (length_remove_prefixes rest (remove_prefix s prefix)). lia.
  - rewrite remove_prefix_unmatched by done. apply IH.
Qed.

(** A text that opens with one of the prefixes comes out shorter. *)
Lemma remove_prefixes_shorter (prefixes : list str) (s prefix : str) :
  Forall (fun prefix => prefix <> []) prefixes ->
  prefix ∈ prefixes -> startswith s prefix = true ->
  length (remove_prefixes prefixes s) < length s.
Proof.
  intros Hne. revert s.
  induction Hne as [|q rest Hq _ IH]; intros s Hin Hs.
  - by apply elem_of_nil in Hin.
  - change (remove_prefixes (q :: rest) s)
      with (remove_prefixes rest (remove_prefix s q)).
    destruct (startswith s q) eqn:Hsq.
    + pose proof (length_remove_prefix_lt s q Hq Hsq).
      pose proof (length_remove_prefixes rest (remove_prefix s q)). lia.
    + rewrite remove_prefix_unmatched by done.
      apply elem_of_cons in Hin as [->|Hin]; [congruence|].
      by apply IH.
Qed.

Lemma prefixes_to_remove_nonempty :
  Forall (fun prefix => prefix <> []) prefixes_to_remove.
Proof. repeat constructor; discriminate. Qed.

Lemma length_strip_tail (s : str) : length (strip_tail s) <= length s.
Proof.
  unfold strip_tail, strip, strip_chars, rstrip_chars.
  pose proof (length_rstrip_by (one_of semicolon) s).
  pose proof (length_strip_by (one_of backtick)
                (rstrip_by (one_of semicolon) s)).
  pose proof (length_strip_by isspace
                (strip_by (one_of backtick) (rstrip_by (one_of semicolon) s))).
  lia.
Qed.

(** The statement handed to the database has no white space at either
    end. *)
Lemma sanitize_trimmed (raw : str) :
  starts_clean isspace (sanitize raw) = true
  /\ ends_clean isspace (sanitize raw) = true.
Proof.
  unfold sanitize, strip_tail, strip. split.
  - apply starts_clean_strip_by.
  - apply ends_clean_strip_by.
Qed.

(** A text with no backtick in front opens with neither fence. *)
Lemma startswith_fence (t rest : str) :
  starts_clean (one_of backtick) t = true ->
  startswith t (96%Z :: rest) = false.
Proof.
  destruct t as [|c t]; [done|].
  unfold starts_clean, one_of, backtick.
  change (lit "`") with [96%Z]. cbn [existsb startswith].
  intros H. destruct (Z.eqb_spec 96 c) as [<-|Hc]; [|done].
  vm_compute in H. discriminate H.
Qed.

(** On a trimmed and settled text the clean-up changes nothing. *)
Lemma sanitize_settled (t : str) :
  starts_clean isspace t = true -> ends_clean isspace t = true ->
  settled t = true -> sanitize t = t.
Proof.
  intros Hs He Hset. unfold settled in Hset.
  apply andb_prop in Hset as [Hset Hq].
  apply andb_prop in Hset as [Hset Hsq].
  apply andb_prop in Hset as [Hset Hsemi].
  apply andb_prop in Hset as [Hb1 Hb2].
  apply negb_true_iff in Hq, Hsq.
  unfold sanitize, strip. rewrite (strip_by_clean _ t Hs He).
  assert (remove_prefixes prefixes_to_remove t = t) as ->.
  { unfold remove_prefixes, prefixes_to_remove. cbn [fold_left].
    rewrite (remove_prefix_unmatched t (lit "```sql"))
      by (by apply (startswith_fence t (lit "``sql"))).
    rewrite (remove_prefix_unmatched t (lit "```"))
      by (by apply (startswith_fence t (lit "``"))).
    rewrite (remove_prefix_unmatched t (lit "SQL Query:") Hsq).
    apply (remove_prefix_unmatched t (lit "Query:") Hq). }
  unfold strip_tail, strip, strip_chars, rstrip_chars.
  rewrite (rstrip_by_clean _ t Hsemi).
  rewrite (strip_by_clean _ t Hb1 Hb2).
  by apply strip_by_clean.
Qed.

(** On a trimmed text that is not settled the clean-up takes something
    away. *)
Lemma sanitize_unsettled (t : str) :
  starts_clean isspace t = true -> ends_clean isspace t = true ->
  settled t = false -> length (sanitize t) < length t.
Proof.
  intros Hs He Hset.
  unfold sanitize, strip. rewrite (strip_by_clean _ t Hs He).
  pose proof (length_strip_tail (remove_prefixes prefixes_to_remove t)) as Htail.
  destruct (remove_prefixes_same_or_shorter prefixes_to_remove t
              prefixes_to_remove_nonempty) as [Hsame|Hlt]; [|lia].
  assert (forall prefix, prefix ∈ prefixes_to_remove ->
            startswith t prefix = false) as Hnone.
  { intros prefix Hin. destruct (startswith t prefix) eqn:Hp; [|done].
    pose proof (remove_prefixes_shorter _ _ _
                  prefixes_to_remove_nonempty Hin Hp) as Hshort.
    rewrite Hsame in Hshort. lia. }
  rewrite Hsame. clear Htail Hsame.
  unfold settled in Hset.
  rewrite (Hnone (lit "SQL Query:")), (Hnone (lit "Query:")) in Hset
    by (unfold prefixes_to_remove; set_solver).
  simpl in Hset. rewrite !andb_true_r in Hset.
  unfold strip_tail, strip, strip_chars, rstrip_chars.
  pose proof (length_strip_by isspace
                (strip_by (one_of backtick) (rstrip_by (one_of semicolon) t))).
  pose proof (length_strip_by (one_of backtick)
                (rstrip_by (one_of semicolon) t)).
  destruct (ends_clean (one_of semicolon) t) eqn:Hsemi.
  - rewrite andb_true_r in Hset.
    rewrite (rstrip_by_clean _ t Hsemi) in *.
    pose proof (length_strip_by_lt (one_of backtick) t Hset). lia.
  - pose proof (length_rstrip_by_lt _ t Hsemi). lia.
Qed.

Lemma removed_prefixes_sublist (prefixes : list str) (s : str) :
  removed_prefixes prefixes s `sublist_of` prefixes.
Proof.
  revert s. induction prefixes as [|prefix rest IH]; intros s; simpl.
  - constructor.
  - destruct (startswith s prefix).
    + apply sublist_skip, IH.
    + apply sublist_cons, IH.
Qed.

Lemma peel_removed_prefixes (prefixes : list str) (s : str) :
  peel (removed_prefixes prefixes s) s = Some (remove_prefixes prefixes s).
Proof.
  revert s. induction prefixes as [|prefix rest IH]; intros s; [done|].
  change (remove_prefixes (prefix :: rest) s)
    with (remove_prefixes rest (remove_prefix s prefix)).
  simpl. destruct (startswith s prefix) eqn:Hs.
  - simpl. rewrite Hs. rewrite <- IH.
    unfold remove_prefix. by rewrite Hs.
  - rewrite <- IH. by rewrite remove_prefix_unmatched.
Qed.

Lemma remove_prefixes_none_removed (prefixes : list str) (s : str) :
  removed_prefixes prefixes s = [] -> remove_prefixes prefixes s = s.
Proof.
  intros H. pose proof (peel_removed_prefixes prefixes s) as Hp.
  rewrite H in Hp. simpl in Hp. congruence.
Qed.

(** When the loop strips at most one prefix, it strips the first one
    that matches, as the specification has it. *)
Lemma remove_prefixes_first_only (prefixes : list str) (s : str) :
  length (removed_prefixes prefixes s) <= 1 ->
  remove_prefixes prefixes s = remove_first_prefix prefixes s.
Proof.
  revert s. induction prefixes as [|prefix rest IH]; intros s; [done|].
  change (remove_prefixes (prefix :: rest) s)
    with (remove_prefixes rest (remove_prefix s prefix)).
  simpl. destruct (startswith s prefix) eqn:Hs.
  - simpl. intros Hlen.
    rewrite remove_prefixes_none_removed.
    + unfold remove_prefix. by rewrite Hs.
    + destruct (removed_prefixes rest (remove_prefix s prefix));
        [done | simpl in Hlen; lia].
  - rewrite remove_prefix_unmatched by done. apply IH.
Qed.

(** ** The clean-up of the response *)

(** C7. The clean-up of the fenced response [```sql], line feed,
    [SELECT 1```] is exactly [SELECT 1]: the loop takes the fence with its
    language tag and nothing else, and the closing backticks go with the
    final [strip('`')]. *)
Theorem sanitize_fenced_select_1 :
  sanitize fenced_select_1 = lit "SELECT 1"
  /\ removed_prefixes prefixes_to_remove (strip fenced_select_1)
     = [lit "```sql"]
  /\ remove_prefixes prefixes_to_remove (strip fenced_select_1)
     = lit "SELECT 1```"
  /\ strip_tail (lit "SELECT 1```") = lit "SELECT 1".
Proof. repeat split; vm_compute; reflexivity. Qed.

(** The other example of the specification: the label and the closing
    semicolon go. *)
Lemma sanitize_label_and_semicolon :
  sanitize (lit "SQL Query: SELECT * FROM t;") = lit "SELECT * FROM t".
Proof. vm_compute. reflexivity. Qed.

(** C1, as stated, fails: on [SQL Query: Query: SELECT 1] the loop strips
    two prefixes, and both labels are gone from the result, where removing
    the first match only would leave [Query: SELECT 1]. *)
Lemma sanitize_strips_two_labels :
  removed_prefixes prefixes_to_remove (strip two_labels)
  = [lit "SQL Query:"; lit "Query:"]
  /\ sanitize two_labels = lit "SELECT 1"
  /\ sanitize_first_only two_labels = lit "Query: SELECT 1"
  /\ sanitize two_labels <> sanitize_first_only two_labels.
Proof.
  repeat split; try (vm_compute; reflexivity).
  intros H. vm_compute in H. discriminate H.
Qed.

(** C1, amended. The loop is one pass over the list of prefixes: the
    prefixes it strips are a sub-sequence of the list, each at most once
    and in the order of the list, so at most four; each of them opens the
    text when its turn comes, and the text is trimmed again after it.
    When the pass strips at most one prefix, the result is that of removing
    the first match only. *)
Theorem sanitize_one_pass_over_prefixes (raw : str) :
  let removed := removed_prefixes prefixes_to_remove (strip raw) in
  removed `sublist_of` prefixes_to_remove
  /\ length removed <= 4
  /\ peel removed (strip raw)
     = Some (remove_prefixes prefixes_to_remove (strip raw))
  /\ sanitize raw
     = strip_tail (remove_prefixes prefixes_to_remove (strip raw))
  /\ (length removed <= 1 -> sanitize raw = sanitize_first_only raw).
Proof.
  intros removed. subst removed.
  pose proof (removed_prefixes_sublist prefixes_to_remove (strip raw)) as Hsub.
  split; [exact Hsub|]. split.
  { apply sublist_length in Hsub. exact Hsub. }
  split; [apply peel_removed_prefixes|]. split; [reflexivity|].
  intros Hlen. unfold sanitize, sanitize_first_only.
  by rewrite remove_prefixes_first_only.
Qed.

(** The pass does not come back to a prefix it has gone past: with the
    labels in the other order only the outer one is taken. *)
Lemma sanitize_one_pass_over_prefixes_witness :
  sanitize labels_swapped = sanitize_first_only labels_swapped.
Proof.
  apply (sanitize_one_pass_over_prefixes labels_swapped).
  vm_compute. lia.
Defined.

(** C3, as stated, fails: a second application takes a label, a
    semicolon or a backtick that the first one left. *)
Lemma sanitize_twice_strips_further :
  sanitize (sanitize labels_swapped) <> sanitize labels_swapped
  /\ sanitize (sanitize semicolon_inside_backtick)
     <> sanitize semicolon_inside_backtick
  /\ sanitize (sanitize spaced_backticks) <> sanitize spaced_backticks.
Proof.
  repeat split; intros H; vm_compute in H; discriminate H.
Qed.

(** C3, amended. A second application leaves the result of the first as
    it is exactly when that result is settled: it opens with neither
    label, does not end in a semicolon and has no backtick at either end.
    The result of the first application is always trimmed, so white space
    is never at stake. *)
Theorem sanitize_idempotent_iff_settled (raw : str) :
  sanitize (sanitize raw) = sanitize raw <-> settled (sanitize raw) = true.
Proof.
  destruct (sanitize_trimmed raw) as [Hs He]. split.
  - intros Hfix. destruct (settled (sanitize raw)) eqn:Hset; [done|].
    pose proof (sanitize_unsettled _ Hs He Hset) as Hlt.
    rewrite Hfix in Hlt. lia.
  - by apply sanitize_settled.
Qed.

Lemma sanitize_idempotent_iff_settled_witness :
  sanitize (sanitize fenced_select_1) = sanitize fenced_select_1.
Proof.
  apply (sanitize_idempotent_iff_settled fenced_select_1).
  vm_compute. reflexivity.
Defined.

(** ** The reference table builder *)





(** ** The display of the execution result *)

Section Display.
Context {L : Libraries}.

(** C6. A text result that [literal_eval] rejects is shown as it is, as
    plain text, and nothing is raised: the display ends normally with that
    one element. *)
Theorem display_result_unparsed (text : str) (e : exn) :
  literal_eval text = Raise e ->
  display_result (VStr text) = ([StText text], Returned tt).
Proof.
  intros Hparse. unfold display_result. rewrite Hparse. reflexivity.
Qed.

(** C5. A text result that is an empty list gives the message
    [No results found.] and nothing else: no table is rendered. *)
Theorem display_result_empty_list (text : str) :
  literal_eval text = Ok (VList []) ->
  display_result (VStr text)
  = ([StInfo (lit "No results found.")], Returned tt)
  /\ forall df, StDataframe df ∉ trace (display_result (VStr text)).
Proof.
  intros Hparse.
  assert (display_result (VStr text)
          = ([StInfo (lit "No results found.")], Returned tt)) as Heq.
  { unfold display_result. rewrite Hparse. reflexivity. }
  split; [exact Heq|].
  intros df. rewrite Heq. unfold trace. simpl.
  intros Hin. apply list_elem_of_singleton in Hin. discriminate Hin.
Qed.


(** C10, amended. For a text result that is a list, the element at index
    0 is read only past the check for the empty list: on the empty list,
    where reading it would raise, the message of no results is shown and
    it is not read; on any other list reading it returns, and that element
    alone decides. When it is a tuple the whole list, whatever its other
    elements are, goes to the table builder, and is shown as the table when
    the table is built and rendered, as the raw text when either raises;
    when it is not a tuple the list is written as a plain list. *)
Theorem display_result_decided_by_first (text : str) (items : list value) :
  literal_eval text = Ok (VList items) ->
  (length items = 0
   /\ (exists e, getitem items 0 = Raise e)
   /\ display_result (VStr text)
      = ([StInfo (lit "No results found.")], Returned tt))
  \/ (length items <> 0
      /\ exists first,
           getitem items 0 = Ok first
           /\ display_result (VStr text)
              = if is_tuple first then table_or_text L text items
                else ([StWrite (VList items)], Returned tt)).
Proof.
  intros Hparse. unfold display_result. rewrite Hparse.
  destruct items as [|first rest].
  - left. split; [reflexivity|]. split; [by eexists|reflexivity].
  - right. split; [done|]. exists first. split; [reflexivity|].
    simpl. destruct (is_tuple first); [|reflexivity].
    unfold table_or_text.
    destruct (pd_DataFrame (first :: rest)) as [df|]; [|reflexivity].
    simpl. by destruct (st_dataframe df).
Qed.
End Display.

Lemma display_result_unparsed_witness :
  @display_result Reference.libraries (VStr decimal_record)
  = ([StText decimal_record], Returned tt).
Proof.
  eapply (@display_result_unparsed Reference.libraries).
  vm_compute. reflexivity.
Defined.

Lemma display_result_empty_list_witness :
  @display_result Reference.libraries (VStr no_records)
  = ([StInfo (lit "No results found.")], Returned tt)
  /\ forall df,
       StDataframe df ∉ trace (@display_result Reference.libraries (VStr no_records)).
Proof.
  apply (@display_result_empty_list Reference.libraries).
  vm_compute. reflexivity.
Defined.



(** C10, as stated, fails: [[(1, 2), 3]] has a tuple first and is
    shown as raw text, not as a table, because the table builder raises on
    its second element. *)
Lemma record_then_number_not_a_table :
  Reference.literal_eval record_then_number
  = Ok (VList [VTuple [VInt 1; VInt 2]; VInt 3])
  /\ is_tuple (VTuple [VInt 1; VInt 2]) = true
  /\ @display_result Reference.libraries (VStr record_then_number)
     = ([StText record_then_number], Returned tt).
Proof. repeat split; vm_compute; reflexivity. Qed.

Lemma display_result_decided_by_first_witness :
  @display_result Reference.libraries (VStr two_numbers)
  = ([StWrite (VList [VInt 1; VInt 2])], Returned tt).
Proof.
  destruct (@display_result_decided_by_first Reference.libraries two_numbers
              [VInt 1; VInt 2])
    as [(Hempty & _)|(_ & first & Hget & Hshown)].
  - vm_compute. reflexivity.
  - discriminate Hempty.
  - injection Hget as <-. exact Hshown.
Defined.

(** ** The run of the script, case by case *)

Section Run.
Context {L : Libraries}.
Variable w : world.

Lemma not_empty (s : str) : s <> [] -> not_ s = false.
Proof. by destruct s. Qed.

(** [mapM] over elements that cannot fail. *)
Lemma mapM_emit {A} (f : A -> event) (l : list A) :
  mapM (fun a => emit (f a)) l = (map f l, Returned (map (fun _ => tt) l)).
Proof.
  induction l as [|a l IH]; [done|].
  cbn [mapM]. rewrite IH.
  unfold emit, mbind, script_bind, mret, script_ret. cbn [app].
  by rewrite app_nil_r.
Qed.

(** The display is always one Streamlit element, and ends normally. *)
Lemma display_result_one_element (result : value) :
  exists e, display_result result = ([e], Returned tt)
            /\ is_query e = false /\ uses_credential e = false
            /\ forall body language, e <> StCode body language.
Proof.
  destruct result as [| | | |text| | | | |];
    try (eexists; split; [reflexivity|done]).
  unfold display_result.
  destruct (literal_eval text) as [parsed|e];
    [|eexists; split; [reflexivity|done]].
  destruct parsed as [| | | | | | |items| |];
    try (eexists; split; [reflexivity|done]).
  destruct items as [|first rest];
    [eexists; split; [reflexivity|done]|].
  simpl. destruct (is_tuple first);
    [|eexists; split; [reflexivity|done]].
  destruct (pd_DataFrame (first :: rest)) as [df|];
    [|eexists; split; [reflexivity|done]].
  simpl. destruct (st_dataframe df);
    eexists; (split; [reflexivity|done]).
Qed.

(** The side bar ends normally, and asks the database for its table names
    only. *)
Lemma sidebar_events (db : SQLDatabase) :
  ending (sidebar db) = Returned tt
  /\ Forall bystander (trace (sidebar db)).
Proof.
  unfold sidebar.
  destruct (get_usable_table_names db) as [[|table tables]|e].
  - split; [reflexivity|]. unfold trace. cbn -[lit].
    repeat (constructor; [solve_bystander|]). constructor.
  - set (names := table :: tables).
    cbn -[mapM lit pretty]. fold names.
    rewrite (mapM_emit (fun table => StWrite (VStr (bullet ++ lit " " ++ table)))).
    cbn -[lit pretty]. split; [reflexivity|].
    repeat (constructor; [solve_bystander|]).
    apply Forall_app. split; [|constructor].
    apply Forall_map, Forall_true. intros table'. solve_bystander.
  - split; [reflexivity|]. unfold trace. cbn -[lit].
    repeat (constructor; [solve_bystander|]). constructor.
Qed.

(** The three handlers show an error and a hint, and end normally. *)
Lemma on_exception_events (e : exn) :
  ending (on_exception e) = Returned tt
  /\ Forall bystander (trace (on_exception e)).
Proof.
  destruct e; (split; [reflexivity|]); unfold trace; cbn -[lit];
    repeat (constructor; [solve_bystander|]); constructor.
Qed.

(** The [try] body of the button, call by call. *)
Lemma generate_and_run_unfolded (db : SQLDatabase) (question : str) :
  generate_and_run w db question
  = match get_table_info db with
    | Raise e => ([GetTableInfo], Raised e)
    | Ok schema =>
        let request := Invoke (prompt schema question) stop_sequences in
        match chat_model w (prompt schema question) stop_sequences with
        | Raise e => ([GetTableInfo; request], Raised e)
        | Ok raw =>
            match sqlparse_format (sanitize raw) with
            | Raise e => ([GetTableInfo; request], Raised e)
            | Ok formatted_sql =>
                match run db (sanitize raw) with
                | Raise e =>
                    (shown_and_run request formatted_sql (sanitize raw),
                     Raised e)
                | Ok result =>
                    (shown_and_run request formatted_sql (sanitize raw)
                       ++ results_header :: trace (display_result result)
                       ++ [executed],
                     Returned tt)
                end
            end
        end
    end.
Proof.
  unfold generate_and_run, sql_chain, get_schema.
  destruct (get_table_info db) as [schema|e]; [|reflexivity].
  cbn -[lit sanitize prompt stop_sequences display_result].
  destruct (chat_model w (prompt schema question) stop_sequences)
    as [raw|e]; [|reflexivity].
  cbn -[lit sanitize prompt stop_sequences display_result].
  destruct (sqlparse_format (sanitize raw)) as [formatted_sql|e];
    [|reflexivity].
  cbn -[lit sanitize prompt stop_sequences display_result].
  destruct (run db (sanitize raw)) as [result|e]; [|reflexivity].
  cbn -[lit sanitize prompt stop_sequences display_result].
  destruct (display_result_one_element result) as (e & -> & _).
  reflexivity.
Qed.

Lemma generate_and_run_never_stops (db : SQLDatabase) (question : str) :
  ending (generate_and_run w db question) <> Stopped.
Proof.
  rewrite generate_and_run_unfolded.
  destruct (get_table_info db) as [schema|]; [|done]. cbv zeta.
  destruct (chat_model w _ _) as [raw|]; [|done].
  destruct (sqlparse_format _); [|done].
  by destruct (run db _).
Qed.

(** What a click does: the warning on a blank question; otherwise the
    [try] body, then the handler of the exception it raised, if any. *)
Lemma on_click_unfolded (db : SQLDatabase) (question : str) :
  on_click w db question
  = if not_ (strip question) then ([blank_question_warning], Returned tt)
    else (generating :: trace (generate_and_run w db question)
            ++ match ending (generate_and_run w db question) with
               | Raised e => trace (on_exception e)
               | _ => []
               end,
          Returned tt).
Proof.
  unfold on_click. destruct (not_ (strip question)); [reflexivity|].
  pose proof (generate_and_run_never_stops db question) as Hstop.
  destruct (generate_and_run w db question) as [t [[]|e|]]; [| |done].
  - unfold trace, ending. cbn -[lit]. by rewrite app_nil_r.
  - destruct (on_exception_events e) as [Hend _].
    unfold try_except, trace, ending. cbn -[lit on_exception].
    destruct (on_exception e) as [t' o]. simpl in Hend. subst o.
    reflexivity.
Qed.

(** The four ways a run goes. *)
Lemma main_no_password :
  password w = [] -> main w = (preamble ++ password_missing, Stopped).
Proof. intros H. unfold main. rewrite H. reflexivity. Qed.

Lemma main_no_api_key :
  password w <> [] -> groq_api_key w = [] ->
  main w = (preamble ++ api_key_missing, Stopped).
Proof.
  intros Hp Hk. unfold main.
  rewrite (not_empty _ Hp), Hk. reflexivity.
Qed.

Lemma main_no_connection (e : exn) :
  password w <> [] -> groq_api_key w <> [] ->
  from_uri w (mysql_uri w (selectbox_value w)) = Raise e ->
  main w
  = (preamble ++ connection_failed (mysql_uri w (selectbox_value w)) e,
     Stopped).
Proof.
  intros Hp Hk Hc. unfold main, get_database_connection.
  rewrite (not_empty _ Hp), (not_empty _ Hk).
  cbn -[lit mysql_uri sidebar on_click groq_api_key].
  rewrite Hc. reflexivity.
Qed.

Lemma main_connected (db : SQLDatabase) :
  password w <> [] -> groq_api_key w <> [] ->
  from_uri w (mysql_uri w (selectbox_value w)) = Ok db ->
  main w
  = (preamble
       ++ connected (mysql_uri w (selectbox_value w)) (selectbox_value w)
            (groq_api_key w)
       ++ (if button_clicked w
           then trace (on_click w db (text_input_value w)) else [])
       ++ trace (sidebar db),
     Returned tt).
Proof.
  intros Hp Hk Hc. unfold main, get_database_connection, get_llm.
  rewrite (not_empty _ Hp), (not_empty _ Hk).
  cbn -[lit mysql_uri sidebar on_click groq_api_key].
  rewrite Hc.
  cbn -[lit mysql_uri sidebar on_click groq_api_key].
  destruct (sidebar_events db) as [Hside _].
  pose proof (on_click_unfolded db (text_input_value w)) as Hclick.
  destruct (sidebar db) as [ts os]. simpl in Hside. subst os.
  destruct (button_clicked w).
  - cbn -[lit mysql_uri sidebar on_click groq_api_key].
    destruct (on_click w db (text_input_value w)) as [tc oc].
    assert (oc = Returned tt) as ->
      by (destruct (not_ (strip (text_input_value w))); congruence).
    reflexivity.
  - reflexivity.
Qed.

(** An event of a run that is no bystander comes from the [try] body of
    the button: the credentials are set, the connection is made, the button
    is clicked and the question is not blank. *)
Lemma button_block_in_main (e : event) :
  ~ bystander e -> e ∈ trace (main w) ->
  exists db,
    password w <> [] /\ groq_api_key w <> []
    /\ from_uri w (mysql_uri w (selectbox_value w)) = Ok db
    /\ button_clicked w = true
    /\ not_ (strip (text_input_value w)) = false
    /\ e ∈ trace (generate_and_run w db (text_input_value w)).
Proof.
  intros Hq Hin.
  assert (forall t, Forall bystander t -> e ∉ t) as Hby.
  { intros t Ht He. rewrite Forall_forall in Ht. by apply Hq, Ht. }
  assert (Forall bystander preamble) as Hpre
    by (repeat (constructor; [solve_bystander|]); constructor).
  destruct (decide (password w = [])) as [Hp|Hp].
  { rewrite (main_no_password Hp) in Hin.
    exfalso. revert Hin. apply Hby, Forall_app. split; [done|].
    repeat (constructor; [solve_bystander|]); constructor. }
  destruct (decide (groq_api_key w = [])) as [Hk|Hk].
  { rewrite (main_no_api_key Hp Hk) in Hin.
    exfalso. revert Hin. apply Hby, Forall_app. split; [done|].
    repeat (constructor; [solve_bystander|]); constructor. }
  destruct (from_uri w (mysql_uri w (selectbox_value w))) as [db|x] eqn:Hc.
  2:{ rewrite (main_no_connection x Hp Hk Hc) in Hin.
      exfalso. revert Hin. apply Hby, Forall_app. split; [done|].
      repeat (constructor; [solve_bystander|]); constructor. }
  exists db. rewrite (main_connected db Hp Hk Hc) in Hin.
  unfold trace at 1 in Hin. cbn [fst] in Hin.
  apply elem_of_app in Hin as [Hin|Hin].
  { exfalso. revert Hin. by apply Hby. }
  apply elem_of_app in Hin as [Hin|Hin].
  { exfalso. revert Hin. apply Hby.
    repeat (constructor; [solve_bystander|]); constructor. }
  apply elem_of_app in Hin as [Hin|Hin].
  2:{ exfalso. revert Hin. apply Hby. apply sidebar_events. }
  destruct (button_clicked w); [|by apply elem_of_nil in Hin].
  rewrite on_click_unfolded in Hin.
  destruct (not_ (strip (text_input_value w))).
  { exfalso. revert Hin. apply Hby.
    repeat (constructor; [solve_bystander|]); constructor. }
  repeat (split; [done|]).
  unfold trace at 1 in Hin. cbn [fst] in Hin.
  apply elem_of_cons in Hin as [->|Hin].
  { exfalso. apply Hq. solve_bystander. }
  apply elem_of_app in Hin as [Hin|Hin]; [done|].
  exfalso. destruct (ending (generate_and_run w db (text_input_value w)));
    [by apply elem_of_nil in Hin | | by apply elem_of_nil in Hin].
  revert Hin. apply Hby. apply on_exception_events.
Qed.

(** The other way round: under the same conditions the events of the
    [try] body are events of the run. *)
Lemma generate_and_run_in_main (db : SQLDatabase) (e : event) :
  password w <> [] -> groq_api_key w <> [] ->
  from_uri w (mysql_uri w (selectbox_value w)) = Ok db ->
  button_clicked w = true ->
  not_ (strip (text_input_value w)) = false ->
  e ∈ trace (generate_and_run w db (text_input_value w)) ->
  e ∈ trace (main w).
Proof.
  intros Hp Hk Hc Hb Hq Hin.
  rewrite (main_connected db Hp Hk Hc), Hb, on_click_unfolded, Hq.
  unfold trace at 1 2. cbn [fst].
  rewrite !elem_of_app, elem_of_cons, elem_of_app. tauto.
Qed.

(** ** The start-up and the button *)

(** C2, amended. When the password or the API key is absent from the
    environment, the run ends in [st.stop()] after an error message. The
    schema selector and the question field are already on the page by
    then: they come before the check. What the halt comes before is the
    connection, the model client and the button, so no credential is used;
    the value read for an absent variable is the empty text, which the
    check rejects, not a default credential. *)
Theorem startup_halts_without_credentials :
  absent w "MYSQL_PASSWORD" \/ absent w "GROQ_API_KEY" ->
  (absent w "MYSQL_PASSWORD" -> password w = [])
  /\ (absent w "GROQ_API_KEY" -> groq_api_key w = [])
  /\ (main w = (preamble ++ password_missing, Stopped)
      \/ main w = (preamble ++ api_key_missing, Stopped))
  /\ Forall (fun e => uses_credential e = false /\ is_query e = false
                      /\ e <> trigger_button)
       (trace (main w)).
Proof.
  intros Habsent.
  assert (absent w "MYSQL_PASSWORD" -> password w = []) as Hpw
    by (unfold absent, password, getenv; by intros ->).
  assert (absent w "GROQ_API_KEY" -> groq_api_key w = []) as Hkey
    by (unfold absent, groq_api_key, getenv; by intros ->).
  split; [exact Hpw|]. split; [exact Hkey|].
  destruct (decide (password w = [])) as [Hp|Hp].
  - rewrite (main_no_password Hp). split; [by left|].
    unfold trace. cbn -[lit]. by repeat constructor.
  - destruct Habsent as [Ha|Ha]; [by apply Hpw in Ha|].
    rewrite (main_no_api_key Hp (Hkey Ha)). split; [by right|].
    unfold trace. cbn -[lit]. by repeat constructor.
Qed.

(** C8. With a question that is empty or white space only, no run
    reads the schema, calls the model or executes a statement; and a run
    that reaches the button with a click on it shows the warning there,
    between the button and the side bar, and nothing else. *)
Theorem blank_question_runs_nothing :
  forallb isspace (text_input_value w) = true ->
  Forall (fun e => is_query e = false) (trace (main w))
  /\ forall db,
       password w <> [] -> groq_api_key w <> [] ->
       from_uri w (mysql_uri w (selectbox_value w)) = Ok db ->
       button_clicked w = true ->
       main w
       = (preamble
            ++ connected (mysql_uri w (selectbox_value w))
                 (selectbox_value w) (groq_api_key w)
            ++ [blank_question_warning] ++ trace (sidebar db),
          Returned tt).
Proof.
  intros Hblank. apply strip_by_nil_iff in Hblank.
  fold (strip (text_input_value w)) in Hblank. split.
  - apply Forall_forall. intros e Hin.
    destruct (is_query e) eqn:Hq; [|done].
    destruct (button_block_in_main e) as (db & _ & _ & _ & _ & Hnb & _);
      [|done|].
    + intros [Hq' _]. congruence.
    + rewrite Hblank in Hnb. discriminate Hnb.
  - intros db Hp Hk Hc Hb.
    rewrite (main_connected db Hp Hk Hc), Hb, on_click_unfolded, Hblank.
    reflexivity.
Qed.

(** C9. A statement that a run executes is the cleaned response of the
    model, whatever the formatter makes of it: the formatted text is the
    one shown as code, it is the only statement shown, and it is not what
    [db.run] receives. *)
Theorem executed_statement_is_sanitized (sql : str) :
  Run sql ∈ trace (main w) ->
  exists db schema raw formatted_sql,
    from_uri w (mysql_uri w (selectbox_value w)) = Ok db
    /\ get_table_info db = Ok schema
    /\ chat_model w (prompt schema (text_input_value w)) stop_sequences
       = Ok raw
    /\ sqlparse_format (sanitize raw) = Ok formatted_sql
    /\ sql = sanitize raw
    /\ StCode formatted_sql (Some (lit "sql")) ∈ trace (main w)
    /\ forall body,
         StCode body (Some (lit "sql")) ∈ trace (main w) ->
         body = formatted_sql.
Proof.
  intros Hin.
  destruct (button_block_in_main (Run sql))
    as (db & Hp & Hk & Hc & Hb & Hnb & Hrun); [by intros [? _]|done|].
  pose proof (generate_and_run_in_main db) as Hback.
  exists db.
  assert (forall body,
            StCode body (Some (lit "sql")) ∈ trace (main w) ->
            StCode body (Some (lit "sql"))
              ∈ trace (generate_and_run w db (text_input_value w)))
    as Hcode.
  { intros body Hbody.
    destruct (button_block_in_main _ (fun H => proj2 H body eq_refl)
                Hbody) as (db' & _ & _ & Hc' & _ & _ & Hg).
    congruence. }
  rewrite generate_and_run_unfolded in Hrun, Hcode.
  specialize (fun e => Hback e Hp Hk Hc Hb Hnb).
  rewrite generate_and_run_unfolded in Hback.
  destruct (get_table_info db) as [schema|x].
  2:{ apply list_elem_of_singleton in Hrun. discriminate Hrun. }
  cbv zeta in *.
  destruct (chat_model w (prompt schema (text_input_value w)) stop_sequences)
    as [raw|x] eqn:Hmodel.
  2:{ unfold trace in Hrun. cbn [fst] in Hrun.
      rewrite !elem_of_cons, elem_of_nil in Hrun.
      destruct Hrun as [?|[?|[]]]; discriminate. }
  destruct (sqlparse_format (sanitize raw)) as [formatted_sql|x] eqn:Hformat.
  2:{ unfold trace in Hrun. cbn [fst] in Hrun.
      rewrite !elem_of_cons, elem_of_nil in Hrun.
      destruct Hrun as [?|[?|[]]]; discriminate. }
  exists schema, raw, formatted_sql.
  split; [exact Hc|]. split; [reflexivity|].
  split; [exact Hmodel|]. split; [exact Hformat|].
  assert (forall e t, e ∈ shown_and_run
                        (Invoke (prompt schema (text_input_value w))
                           stop_sequences) formatted_sql (sanitize raw) ++ t ->
                      (exists s, e = Run s) \/
                      (exists body, e = StCode body (Some (lit "sql"))) ->
                      e ∈ t \/ e = Run (sanitize raw)
                      \/ e = StCode formatted_sql (Some (lit "sql")))
    as Hshown.
  { intros e t He Hkind. unfold shown_and_run in He. cbn [app] in He.
    rewrite !elem_of_cons in He.
    destruct He as [->|[->|[->|[->|[->|[->|He]]]]]];
      try (destruct Hkind as [[? Heq]|[? Heq]]; discriminate Heq); auto. }
  assert (forall e result,
            e ∈ results_header :: trace (display_result result) ++ [executed] ->
            (exists s, e = Run s) \/
            (exists body, e = StCode body (Some (lit "sql"))) -> False)
    as Hrest.
  { intros e result He Hkind.
    destruct (display_result_one_element result)
      as (e' & Heq & Hq' & _ & Hcode').
    rewrite Heq in He. unfold trace in He. cbn [fst app] in He.
    rewrite !elem_of_cons, elem_of_nil in He.
    destruct He as [->|[->|[->|[]]]];
      destruct Hkind as [[? Heq']|[? Heq']];
      try discriminate Heq'; subst e'; [discriminate Hq'|].
    by eapply Hcode'. }
  destruct (run db (sanitize raw)) as [result|x];
    unfold trace in Hrun, Hcode, Hback; cbn [fst] in Hrun, Hcode, Hback.
  - split.
    { apply Hshown in Hrun as [Hrun|[Hrun|Hrun]]; [|congruence|discriminate|eauto].
      exfalso. eapply Hrest; eauto. }
    split.
    { apply Hback. unfold shown_and_run. cbn [app].
      rewrite !elem_of_cons. auto 10. }
    intros body Hbody. apply Hcode in Hbody.
    apply Hshown in Hbody as [Hbody|[Hbody|Hbody]]; [|discriminate|congruence|eauto].
    exfalso. eapply Hrest; eauto.
  - rewrite <- (app_nil_r (shown_and_run _ _ _)) in Hrun, Hcode.
    split.
    { apply Hshown in Hrun as [Hrun|[Hrun|Hrun]]; [|congruence|discriminate|eauto].
      by apply elem_of_nil in Hrun. }
    split.
    { apply Hback. unfold shown_and_run.
      rewrite !elem_of_cons. auto 10. }
    intros body Hbody. apply Hcode in Hbody.
    apply Hshown in Hbody as [Hbody|[Hbody|Hbody]]; [|discriminate|congruence|eauto].
    by apply elem_of_nil in Hbody.
Qed.
End Run.

(** C2, as stated, fails: with nothing set in the environment the run
    halts, and the schema selector and the question field are among the
    elements rendered before the halt. *)
Lemma widgets_rendered_before_halt :
  absent bare_world "MYSQL_PASSWORD"
  /\ ending (@main Reference.libraries bare_world) = Stopped
  /\ exists before after,
       trace (@main Reference.libraries bare_world)
       = before
           ++ [StSelectbox (lit "Choose a database schema") db_options;
               StTextInput (lit "Enter your natural language query")]
           ++ after
       /\ (StStop ∉ before) /\ last after = Some StStop.
Proof.
  split; [reflexivity|]. split; [reflexivity|].
  exists (take 2 preamble), password_missing.
  split; [reflexivity|]. split; [|reflexivity].
  intros Hin. cbn [take preamble] in Hin.
  rewrite !elem_of_cons, elem_of_nil in Hin.
  destruct Hin as [?|[?|[]]]; discriminate.
Qed.

Lemma startup_halts_without_credentials_witness :
  (absent bare_world "MYSQL_PASSWORD" ->
   @password bare_world = [])
  /\ (absent bare_world "GROQ_API_KEY" -> @groq_api_key bare_world = [])
  /\ (@main Reference.libraries bare_world
      = (preamble ++ password_missing, Stopped)
      \/ @main Reference.libraries bare_world
         = (preamble ++ api_key_missing, Stopped))
  /\ Forall (fun e => uses_credential e = false /\ is_query e = false
                      /\ e <> trigger_button)
       (trace (@main Reference.libraries bare_world)).
Proof.
  apply (@startup_halts_without_credentials Reference.libraries bare_world).
  left. reflexivity.
Defined.

Lemma blank_question_runs_nothing_witness :
  Forall (fun e => is_query e = false)
    (trace (@main Reference.libraries (demo_world blank_question)))
  /\ forall db,
       password (demo_world blank_question) <> [] ->
       groq_api_key (demo_world blank_question) <> [] ->
       from_uri (demo_world blank_question)
         (@mysql_uri Reference.libraries (demo_world blank_question)
            (lit "analytics")) = Ok db ->
       button_clicked (demo_world blank_question) = true ->
       @main Reference.libraries (demo_world blank_question)
       = (preamble
            ++ connected
                 (@mysql_uri Reference.libraries (demo_world blank_question)
                    (lit "analytics"))
                 (lit "analytics") (groq_api_key (demo_world blank_question))
            ++ [blank_question_warning] ++ trace (sidebar db),
          Returned tt).
Proof.
  apply (@blank_question_runs_nothing Reference.libraries
           (demo_world blank_question)).
  vm_compute. reflexivity.
Defined.

Lemma executed_statement_is_sanitized_witness :
  exists db schema raw formatted_sql,
    from_uri (demo_world count_question)
      (@mysql_uri Reference.libraries (demo_world count_question)
         (lit "analytics")) = Ok db
    /\ get_table_info db = Ok schema
    /\ chat_model (demo_world count_question)
         (prompt schema count_question) stop_sequences = Ok raw
    /\ Reference.sqlparse_format (sanitize raw) = Ok formatted_sql
    /\ lit "select 1" = sanitize raw
    /\ StCode formatted_sql (Some (lit "sql"))
         ∈ trace (@main Reference.libraries (demo_world count_question))
    /\ forall body,
         StCode body (Some (lit "sql"))
           ∈ trace (@main Reference.libraries (demo_world count_question)) ->
         body = formatted_sql.
Proof.
  apply (@executed_statement_is_sanitized Reference.libraries
           (demo_world count_question) (lit "select 1")).
  vm_compute.
  repeat first [apply list_elem_of_here | apply list_elem_of_further].
Defined.

(** ** More on the clean-up *)

Lemma piece_of_refl (s : str) : piece_of s s.
Proof. exists [], []. by rewrite app_nil_r. Qed.

Lemma piece_of_trans (r t s : str) :
  piece_of r t -> piece_of t s -> piece_of r s.
Proof.
  intros (a & b & ->) (c & d & ->).
  exists (c ++ a), (b ++ d). by rewrite <- !app_assoc.
Qed.

Lemma piece_of_suffix (k s : str) : piece_of s (k ++ s).
Proof. exists k, []. by rewrite app_nil_r. Qed.

Lemma piece_of_prefix (s k : str) : piece_of s (s ++ k).
Proof. by exists [], k. Qed.

Lemma piece_of_length (t s : str) : piece_of t s -> length t <= length s.
Proof. intros (a & b & ->). rewrite !length_app. lia. Qed.

Lemma strip_by_piece (p : char -> bool) (s : str) :
  piece_of (strip_by p s) s.
Proof.
  unfold strip_by.
  destruct (lstrip_by_suffix p s) as [k Hk].
  destruct (rstrip_by_prefix p (lstrip_by p s)) as [k' Hk'].
  apply piece_of_trans with (lstrip_by p s).
  - rewrite Hk' at 2. apply piece_of_prefix.
  - rewrite Hk at 2. apply piece_of_suffix.
Qed.

Lemma rstrip_by_piece (p : char -> bool) (s : str) :
  piece_of (rstrip_by p s) s.
Proof.
  destruct (rstrip_by_prefix p s) as [k Hk].
  rewrite Hk at 2. apply piece_of_prefix.
Qed.

Lemma remove_prefix_piece (s prefix : str) :
  piece_of (remove_prefix s prefix) s.
Proof.
  unfold remove_prefix, slice_from, strip.
  destruct (startswith s prefix); [|apply piece_of_refl].
  apply piece_of_trans with (drop (length prefix) s).
  - apply strip_by_piece.
  - rewrite <- (take_drop (length prefix) s) at 2. apply piece_of_suffix.
Qed.

Lemma remove_prefixes_piece (prefixes : list str) (s : str) :
  piece_of (remove_prefixes prefixes s) s.
Proof.
  revert s. induction prefixes as [|prefix rest IH]; intros s.
  - apply piece_of_refl.
  - change (remove_prefixes (prefix :: rest) s)
      with (remove_prefixes rest (remove_prefix s prefix)).
    eapply piece_of_trans; [apply IH|apply remove_prefix_piece].
Qed.

(** X1. The clean-up only takes away from the two ends of the response:
    the statement it returns is a contiguous piece of the raw text, never
    longer than it, with no white space at either end. Nothing inside the
    statement is rewritten. *)
Theorem sanitize_keeps_a_piece (raw : str) :
  piece_of (sanitize raw) raw
  /\ length (sanitize raw) <= length raw
  /\ starts_clean isspace (sanitize raw) = true
  /\ ends_clean isspace (sanitize raw) = true.
Proof.
  assert (piece_of (sanitize raw) raw) as Hpiece.
  { unfold sanitize, strip_tail, strip, strip_chars, rstrip_chars.
    eapply piece_of_trans; [apply strip_by_piece|].
    eapply piece_of_trans; [apply strip_by_piece|].
    eapply piece_of_trans; [apply rstrip_by_piece|].
    eapply piece_of_trans; [apply remove_prefixes_piece|].
    apply strip_by_piece. }
  split; [exact Hpiece|]. split; [by apply piece_of_length|].
  apply sanitize_trimmed.
Qed.

(** X2. The texts the clean-up leaves as they are, among all texts and not
    only among its own results, are the trimmed and settled ones: no white
    space at either end, neither label in front, no semicolon at the end, no
    backtick at either end. *)
Theorem sanitize_fixed_points (t : str) :
  sanitize t = t
  <-> starts_clean isspace t && ends_clean isspace t && settled t = true.
Proof.
  split.
  - intros Hfix. destruct (sanitize_trimmed t) as [Hs He].
    rewrite Hfix in Hs, He. rewrite Hs, He. simpl.
    destruct (settled t) eqn:Hset; [done|].
    pose proof (sanitize_unsettled t Hs He Hset) as Hlt.
    rewrite Hfix in Hlt. lia.
  - intros H. apply andb_prop in H as [H Hset].
    apply andb_prop in H as [Hs He]. by apply sanitize_settled.
Qed.

(** X3. A response that is empty or white space only is cleaned to the
    empty statement: nothing in the clean-up rejects it. *)
Theorem sanitize_blank_response (raw : str) :
  forallb isspace raw = true -> sanitize raw = [].
Proof.
  intros Hblank. unfold sanitize.
  apply strip_by_nil_iff in Hblank. fold (strip raw) in Hblank.
  rewrite Hblank. reflexivity.
Qed.

Lemma sanitize_blank_response_witness :
  sanitize (lit " " ++ LF ++ lit "  ") = [].
Proof.
  apply (sanitize_blank_response (lit " " ++ LF ++ lit "  ")).
  vm_compute. reflexivity.
Defined.

(** *** One wrapper around a clean statement *)

Lemma lstrip_by_app_all (p : char -> bool) (ws s : str) :
  forallb p ws = true -> lstrip_by p (ws ++ s) = lstrip_by p s.
Proof.
  induction ws as [|c ws IH]; simpl; [done|].
  destruct (p c); [exact IH|done].
Qed.

Lemma forallb_rev (p : char -> bool) (s : str) :
  forallb p (rev s) = forallb p s.
Proof.
  unfold char, str in *.
  induction s as [|c s IH]; simpl; [done|].
  rewrite forallb_app, IH. simpl. rewrite andb_true_r. apply andb_comm.
Qed.

Lemma rstrip_by_app_all (p : char -> bool) (s ws : str) :
  forallb p ws = true -> rstrip_by p (s ++ ws) = rstrip_by p s.
Proof.
  intros H. unfold rstrip_by. rewrite rev_app_distr.
  by rewrite lstrip_by_app_all by (by rewrite forallb_rev).
Qed.

Lemma starts_clean_app (p : char -> bool) (a s : str) :
  a <> [] -> starts_clean p (a ++ s) = starts_clean p a.
Proof. by destruct a. Qed.

Lemma ends_clean_app (p : char -> bool) (a s : str) :
  s <> [] -> ends_clean p (a ++ s) = ends_clean p s.
Proof.
  intros Hs. unfold ends_clean. rewrite rev_app_distr.
  apply starts_clean_app. intros Hr.
  apply (f_equal (@rev Z)) in Hr. by rewrite rev_involutive in Hr.
Qed.

Lemma startswith_app (prefix s : str) : startswith (prefix ++ s) prefix = true.
Proof.
  induction prefix as [|c prefix IH]; simpl; [by destruct s|].
  by rewrite Z.eqb_refl.
Qed.

(** A prefix of [a] is a prefix of [a ++ s]. *)
Lemma startswith_app_l (a s prefix : str) :
  startswith a prefix = true -> startswith (a ++ s) prefix = true.
Proof.
  revert a. induction prefix as [|c prefix IH]; intros a H.
  - by destruct (a ++ s).
  - destruct a as [|d a]; [done|]. simpl in *.
    apply andb_prop in H as [-> H]. by apply IH.
Qed.

Lemma remove_prefix_app (prefix s : str) :
  remove_prefix (prefix ++ s) prefix = strip s.
Proof.
  unfold remove_prefix, slice_from.
  by rewrite startswith_app, drop_app_length.
Qed.

Lemma remove_prefixes_unmatched (prefixes : list str) (s : str) :
  Forall (fun prefix => startswith s prefix = false) prefixes ->
  remove_prefixes prefixes s = s.
Proof.
  induction 1 as [|prefix rest Hp _ IH]; [done|].
  change (remove_prefixes (prefix :: rest) s)
    with (remove_prefixes rest (remove_prefix s prefix)).
  by rewrite remove_prefix_unmatched.
Qed.

Lemma remove_prefixes_app (before after : list str) (s : str) :
  remove_prefixes (before ++ after) s
  = remove_prefixes after (remove_prefixes before s).
Proof. apply fold_left_app. Qed.

(** A settled text opens with none of the four prefixes, and has no tail
    to strip. *)
Lemma settled_unmatched (s : str) :
  settled s = true ->
  Forall (fun prefix => startswith s prefix = false) prefixes_to_remove.
Proof.
  unfold settled. intros H.
  apply andb_prop in H as [H Hq]. apply andb_prop in H as [H Hsq].
  apply andb_prop in H as [H _]. apply andb_prop in H as [Hb _].
  apply negb_true_iff in Hq, Hsq.
  repeat constructor; try done.
  - by apply (startswith_fence s (lit "``sql")).
  - by apply (startswith_fence s (lit "``")).
Qed.

Lemma strip_tail_settled (s : str) :
  starts_clean isspace s = true -> ends_clean isspace s = true ->
  settled s = true -> strip_tail s = s.
Proof.
  intros Hs He Hset. unfold settled in Hset.
  apply andb_prop in Hset as [Hset _]. apply andb_prop in Hset as [Hset _].
  apply andb_prop in Hset as [Hset Hsemi].
  apply andb_prop in Hset as [Hb1 Hb2].
  unfold strip_tail, strip, strip_chars, rstrip_chars.
  rewrite (rstrip_by_clean _ s Hsemi), (strip_by_clean _ s Hb1 Hb2).
  by apply strip_by_clean.
Qed.

(** The loop on a text made of one prefix, white space and a statement:
    the prefixes before it in the list do not match the text, those after
    it do not match the statement. *)
Lemma remove_prefixes_one_wrapper
    (before after : list str) (prefix ws s : str) :
  prefix <> [] ->
  starts_clean isspace prefix = true -> ends_clean isspace prefix = true ->
  forallb isspace ws = true ->
  starts_clean isspace s = true -> ends_clean isspace s = true ->
  Forall (fun q => startswith (prefix ++ ws ++ s) q = false) before ->
  Forall (fun q => startswith s q = false) after ->
  remove_prefixes (before ++ prefix :: after) (strip (prefix ++ ws ++ s)) = s.
Proof.
  intros Hne Hps Hpe Hws Hs He Hbefore Hafter.
  rewrite remove_prefixes_app.
  change (remove_prefixes (prefix :: after) ?t)
    with (remove_prefixes after (remove_prefix t prefix)).
  destruct s as [|c s].
  - assert (strip (prefix ++ ws ++ []) = prefix) as ->.
    { rewrite app_nil_r. unfold strip, strip_by.
      rewrite lstrip_by_clean by (by rewrite starts_clean_app).
      rewrite rstrip_by_app_all by done. by apply rstrip_by_clean. }
    rewrite (remove_prefixes_unmatched before).
    + pose proof (remove_prefix_app prefix []) as Hrp.
      rewrite app_nil_r in Hrp. rewrite Hrp.
      by apply remove_prefixes_unmatched.
    + eapply Forall_impl; [exact Hbefore|]. intros q Hq. simpl in Hq.
      destruct (startswith prefix q) eqn:Hpq; [|done].
      by rewrite (startswith_app_l _ (ws ++ []) _ Hpq) in Hq.
  - assert (strip (prefix ++ ws ++ c :: s) = prefix ++ ws ++ c :: s) as ->.
    { apply strip_by_clean.
      - by rewrite starts_clean_app.
      - rewrite app_assoc. by rewrite ends_clean_app. }
    rewrite (remove_prefixes_unmatched before) by done.
    rewrite remove_prefix_app.
    assert (strip (ws ++ c :: s) = c :: s) as ->.
    { unfold strip, strip_by. rewrite lstrip_by_app_all by done.
      by apply (strip_by_clean isspace (c :: s)). }
    by apply remove_prefixes_unmatched.
Qed.

(** X4. One wrapper around a clean statement is removed and the statement
    comes back unchanged: for each of the four prefixes, followed by any
    white space and a trimmed, settled statement, the clean-up returns that
    statement. For the bare fence this needs that what follows it does not
    read [sql], since the fence with the language tag is tried first. *)
Theorem sanitize_one_wrapper (prefix ws s : str) :
  prefix ∈ prefixes_to_remove ->
  forallb isspace ws = true ->
  starts_clean isspace s = true -> ends_clean isspace s = true ->
  settled s = true ->
  (prefix = lit "```" -> startswith (ws ++ s) (lit "sql") = false) ->
  sanitize (prefix ++ ws ++ s) = s.
Proof.
  intros Hin Hws Hs He Hset Hsql. unfold sanitize.
  pose proof (settled_unmatched s Hset) as Hnone.
  unfold prefixes_to_remove in Hin, Hnone.
  apply Forall_cons in Hnone as [H1 Hnone].
  apply Forall_cons in Hnone as [H2 Hnone].
  apply Forall_cons in Hnone as [H3 Hnone].
  apply Forall_cons in Hnone as [H4 _].
  rewrite !elem_of_cons, elem_of_nil in Hin.
  destruct Hin as [->|[->|[->|[->|[]]]]].
  - change prefixes_to_remove
      with ([] ++ lit "```sql" :: [lit "```"; lit "SQL Query:"; lit "Query:"]).
    rewrite remove_prefixes_one_wrapper; try done;
      try (by apply strip_tail_settled); repeat constructor; try done;
      by apply Hsql.
  - change prefixes_to_remove
      with ([lit "```sql"] ++ lit "```" :: [lit "SQL Query:"; lit "Query:"]).
    rewrite remove_prefixes_one_wrapper; try done;
      try (by apply strip_tail_settled); repeat constructor; try done;
      by apply Hsql.
  - change prefixes_to_remove
      with ([lit "```sql"; lit "```"] ++ lit "SQL Query:" :: [lit "Query:"]).
    rewrite remove_prefixes_one_wrapper; try done;
      try (by apply strip_tail_settled); repeat constructor; try done;
      by apply Hsql.
  - change prefixes_to_remove
      with ([lit "```sql"; lit "```"; lit "SQL Query:"] ++ lit "Query:" :: []).
    rewrite remove_prefixes_one_wrapper; try done;
      try (by apply strip_tail_settled); repeat constructor; try done;
      by apply Hsql.
Qed.

Lemma sanitize_one_wrapper_witness :
  sanitize (lit "Query:" ++ lit " " ++ lit "SELECT name FROM t")
  = lit "SELECT name FROM t".
Proof.
  apply (sanitize_one_wrapper (lit "Query:") (lit " ")
           (lit "SELECT name FROM t")); try (vm_compute; reflexivity).
  unfold prefixes_to_remove. rewrite !elem_of_cons. tauto.
Defined.

(** *** Semicolons behind a closing fence *)

Lemma count_char_app (c : char) (a b : str) :
  count_char c (a ++ b) = count_char c a + count_char c b.
Proof. unfold count_char. by rewrite List.filter_app, length_app. Qed.

Lemma count_char_rev (c : char) (s : str) :
  count_char c (rev s) = count_char c s.
Proof. unfold count_char. by rewrite List.filter_rev, length_rev. Qed.

Lemma count_char_lstrip_by (p : char -> bool) (c : char) (s : str) :
  p c = false -> count_char c (lstrip_by p s) = count_char c s.
Proof.
  intros Hc. induction s as [|d s IH]; simpl; [done|].
  destruct (p d) eqn:Hd; [|done].
  rewrite IH. unfold count_char. simpl.
  destruct (Z.eqb_spec c d) as [->|]; [congruence|done].
Qed.

Lemma count_char_rstrip_by (p : char -> bool) (c : char) (s : str) :
  p c = false -> count_char c (rstrip_by p s) = count_char c s.
Proof.
  intros Hc. unfold rstrip_by.
  by rewrite count_char_rev, count_char_lstrip_by, count_char_rev.
Qed.

Lemma count_char_strip_by (p : char -> bool) (c : char) (s : str) :
  p c = false -> count_char c (strip_by p s) = count_char c s.
Proof.
  intros Hc. unfold strip_by.
  by rewrite count_char_rstrip_by, count_char_lstrip_by.
Qed.

Lemma startswith_split (s prefix : str) :
  startswith s prefix = true -> s = prefix ++ drop (length prefix) s.
Proof.
  revert s. induction prefix as [|c prefix IH]; intros s H; [done|].
  destruct s as [|d s]; [done|]. simpl in *.
  apply andb_prop in H as [Hcd H]. apply Z.eqb_eq in Hcd as ->.
  f_equal. by apply IH.
Qed.

Lemma count_char_remove_prefix (c : char) (s prefix : str) :
  isspace c = false -> count_char c prefix = 0 ->
  count_char c (remove_prefix s prefix) = count_char c s.
Proof.
  intros Hc Hp. unfold remove_prefix, slice_from, strip.
  destruct (startswith s prefix) eqn:Hs; [|done].
  rewrite count_char_strip_by by done.
  rewrite (startswith_split s prefix Hs) at 2.
  rewrite count_char_app. lia.
Qed.

Lemma count_char_remove_prefixes (c : char) (prefixes : list str) (s : str) :
  isspace c = false ->
  Forall (fun prefix => count_char c prefix = 0) prefixes ->
  count_char c (remove_prefixes prefixes s) = count_char c s.
Proof.
  intros Hc Hall. revert s.
  induction Hall as [|prefix rest Hp _ IH]; intros s; [done|].
  change (remove_prefixes (prefix :: rest) s)
    with (remove_prefixes rest (remove_prefix s prefix)).
  by rewrite IH, count_char_remove_prefix.
Qed.

(** What the last character is not, it is not in a suffix either. *)
Lemma ends_clean_suffix (q : char -> bool) (k s : str) :
  ends_clean q (k ++ s) = true -> ends_clean q s = true.
Proof.
  destruct s as [|c s]; [done|].
  by rewrite ends_clean_app.
Qed.

Lemma ends_clean_weaken (p q : char -> bool) (s : str) :
  (forall c, p c = true -> q c = true) ->
  ends_clean q s = true -> ends_clean p s = true.
Proof.
  intros Hpq. unfold ends_clean, starts_clean.
  destruct (rev s) as [|c r]; [done|].
  intros H. apply negb_true_iff in H. apply negb_true_iff.
  destruct (p c) eqn:Hc; [|done]. by rewrite (Hpq c Hc) in H.
Qed.

Lemma isspace_not_backtick (c : char) :
  isspace c = true -> not_backtick c = true.
Proof.
  unfold not_backtick. destruct (Z.eqb_spec c 96) as [->|]; [|done].
  intros H. vm_compute in H. discriminate H.
Qed.

Lemma semicolon_not_backtick (c : char) :
  one_of semicolon c = true -> not_backtick c = true.
Proof.
  unfold not_backtick. destruct (Z.eqb_spec c 96) as [->|]; [|done].
  intros H. vm_compute in H. discriminate H.
Qed.

(** The loop keeps a closing backtick at the end of the text. *)
Lemma remove_prefix_keeps_backtick (s prefix : str) :
  ends_clean not_backtick s = true ->
  ends_clean not_backtick (remove_prefix s prefix) = true.
Proof.
  intros H. unfold remove_prefix, slice_from, strip, strip_by.
  destruct (startswith s prefix); [|done].
  assert (ends_clean not_backtick
            (lstrip_by isspace (drop (length prefix) s)) = true) as Hl.
  { destruct (lstrip_by_suffix isspace (drop (length prefix) s)) as [k Hk].
    apply (ends_clean_suffix _ (take (length prefix) s ++ k)).
    by rewrite <- app_assoc, <- Hk, take_drop. }
  rewrite rstrip_by_clean; [done|].
  eapply ends_clean_weaken; [apply isspace_not_backtick|done].
Qed.

Lemma remove_prefixes_keeps_backtick (prefixes : list str) (s : str) :
  ends_clean not_backtick s = true ->
  ends_clean not_backtick (remove_prefixes prefixes s) = true.
Proof.
  revert s. induction prefixes as [|prefix rest IH]; intros s H; [done|].
  change (remove_prefixes (prefix :: rest) s)
    with (remove_prefixes rest (remove_prefix s prefix)).
  by apply IH, remove_prefix_keeps_backtick.
Qed.

(** X5. When the trimmed response ends in a backtick, no semicolon is
    removed: [rstrip(';')] runs before [strip('`')], so a semicolon that
    closes the statement inside a fence is still there in the statement that
    is executed. *)
Theorem sanitize_keeps_semicolon_inside_fence (raw : str) :
  last (strip raw) = Some 96%Z ->
  count_char 59%Z (sanitize raw) = count_char 59%Z raw.
Proof.
  intros Hlast.
  assert (ends_clean not_backtick (strip raw) = true) as Hend.
  { apply last_Some in Hlast as [l Hl]. rewrite Hl.
    unfold ends_clean. by rewrite rev_app_distr. }
  pose proof (remove_prefixes_keeps_backtick prefixes_to_remove _ Hend) as Hu.
  unfold sanitize, strip_tail, strip_chars, rstrip_chars.
  rewrite (rstrip_by_clean (one_of semicolon))
    by (eapply ends_clean_weaken; [apply semicolon_not_backtick|done]).
  unfold strip. rewrite !count_char_strip_by by done.
  rewrite count_char_remove_prefixes; [|done|by repeat constructor].
  by rewrite count_char_strip_by.
Qed.

Lemma sanitize_keeps_semicolon_inside_fence_witness :
  count_char 59%Z (sanitize fenced_with_semicolon)
  = count_char 59%Z fenced_with_semicolon.
Proof.
  apply (sanitize_keeps_semicolon_inside_fence fenced_with_semicolon).
  vm_compute. reflexivity.
Defined.

(** ** More on the display *)

Section DisplayMore.
Context {L : Libraries}.

(** The display ends normally with one element of the four kinds. *)
Lemma display_result_element (result : value) :
  exists e, display_result result = ([e], Returned tt)
            /\ is_display_element e = true.
Proof.
  destruct result as [| | | |text| | | | |];
    try (eexists; split; [reflexivity|done]).
  unfold display_result.
  destruct (literal_eval text) as [parsed|x];
    [|eexists; split; [reflexivity|done]].
  destruct parsed as [| | | | | | |items| |];
    try (eexists; split; [reflexivity|done]).
  destruct items as [|first rest];
    [eexists; split; [reflexivity|done]|].
  simpl. destruct (is_tuple first);
    [|eexists; split; [reflexivity|done]].
  destruct (pd_DataFrame (first :: rest)) as [df|];
    [|eexists; split; [reflexivity|done]].
  simpl. destruct (st_dataframe df);
    eexists; (split; [reflexivity|done]).
Qed.

(** X6. Whatever the result is, and whatever the parser, the table
    builder and the rendering of the table do with it, the display raises
    nothing and does not stop the script: it ends normally after exactly one
    element, which is a message, a table, a written value or a plain
    text. *)
Theorem display_result_never_raises (result : value) :
  ending (display_result result) = Returned tt
  /\ length (trace (display_result result)) = 1
  /\ Forall (fun e => is_display_element e = true)
       (trace (display_result result)).
Proof.
  destruct (display_result_element result) as (e & -> & He).
  repeat split. by constructor.
Qed.

(** X7. A scalar is displayed as that value and never as a table: a
    result that is not a text is written as it is, and a text that parses
    to anything but a list is written as the parsed value. *)
Theorem display_result_scalar (result parsed : value) :
  (result = parsed /\ forall text, result <> VStr text)
  \/ (exists text, result = VStr text
                   /\ literal_eval text = Ok parsed
                   /\ forall items, parsed <> VList items) ->
  display_result result = ([StWrite parsed], Returned tt)
  /\ forall df, StDataframe df ∉ trace (display_result result).
Proof.
  intros H.
  assert (display_result result = ([StWrite parsed], Returned tt)) as Heq.
  { destruct H as [[-> Hns]|(text & -> & Hparse & Hnl)].
    - destruct parsed; try reflexivity. by destruct (Hns s).
    - unfold display_result. rewrite Hparse.
      destruct parsed; try reflexivity. by destruct (Hnl items). }
  split; [exact Heq|]. intros df. rewrite Heq. unfold trace. simpl.
  intros Hin. apply list_elem_of_singleton in Hin. discriminate Hin.
Qed.
End DisplayMore.

Lemma display_result_scalar_witness :
  @display_result Reference.libraries (VStr (lit "42"))
  = ([StWrite (VInt 42)], Returned tt)
  /\ forall df,
       StDataframe df
         ∉ trace (@display_result Reference.libraries (VStr (lit "42"))).
Proof.
  apply (@display_result_scalar Reference.libraries (VStr (lit "42"))
           (VInt 42)).
  right. exists (lit "42").
  split; [reflexivity|]. split; [vm_compute; reflexivity|].
  intros items. discriminate.
Defined.

(** ** More on the run *)

Section RunMore.
Context {L : Libraries}.
Variable w : world.

(** X8. No exception leaves the button's block and nothing in it stops
    the script: a click always ends normally, whatever the database, the
    model, the formatter and the display do. So a run that is connected
    always ends normally, with the side bar as its last elements. *)
Theorem connected_run_completes :
  (forall db question, ending (on_click w db question) = Returned tt)
  /\ forall db,
       password w <> [] -> groq_api_key w <> [] ->
       from_uri w (mysql_uri w (selectbox_value w)) = Ok db ->
       ending (main w) = Returned tt
       /\ exists before, trace (main w) = before ++ trace (sidebar db).
Proof.
  split.
  - intros db question. rewrite on_click_unfolded.
    by destruct (not_ (strip question)).
  - intros db Hp Hk Hc. rewrite (main_connected w db Hp Hk Hc).
    split; [reflexivity|]. unfold trace at 1. cbn [fst].
    eexists. rewrite !app_assoc. reflexivity.
Qed.

(** The elements of the three handlers. *)
Lemma on_exception_elements (e : exn) :
  exists body hint, trace (on_exception e) = [StError body; StInfo hint].
Proof. destruct e; by eexists _, _. Qed.

(** X9. For a question that is not blank, the message of success is shown
    exactly when the [try] body raised nothing: then it is the last
    element of the click and no error is shown. When the body raised, the
    click ends with the error and the hint of the handler, and the message
    of success is not shown. *)
Theorem success_message_iff_no_exception (db : SQLDatabase) (question : str) :
  not_ (strip question) = false ->
  match ending (generate_and_run w db question) with
  | Returned _ =>
      last (trace (on_click w db question)) = Some executed
      /\ forall body, StError body ∉ trace (on_click w db question)
  | Raised e =>
      trace (on_click w db question)
      = generating :: trace (generate_and_run w db question)
          ++ trace (on_exception e)
      /\ (executed ∉ trace (on_click w db question))
      /\ exists body, StError body ∈ trace (on_exception e)
  | Stopped => False
  end.
Proof.
  intros Hq. rewrite on_click_unfolded, Hq.
  rewrite generate_and_run_unfolded.
  assert (forall e t, executed ∉ t ->
            executed ∉ generating :: t ++ trace (on_exception e)) as Hno.
  { intros e t Ht. destruct (on_exception_elements e) as (b & h & ->).
    intros Hin. rewrite elem_of_cons, elem_of_app, !elem_of_cons, elem_of_nil in Hin.
    destruct Hin as [Hin|[Hin|[Hin|[Hin|[]]]]]; try discriminate Hin.
    by apply Ht. }
  assert (forall e, exists body, StError body ∈ trace (on_exception e))
    as Herr.
  { intros e. destruct (on_exception_elements e) as (b & h & ->).
    exists b. apply list_elem_of_here. }
  destruct (get_table_info db) as [schema|x].
  2:{ unfold trace, ending. cbn [fst snd].
      split; [reflexivity|]. split; [|apply Herr].
      apply (Hno x [GetTableInfo]).
      rewrite elem_of_cons, elem_of_nil. intros [H|[]]. discriminate H. }
  cbv zeta.
  destruct (chat_model w (prompt schema question) stop_sequences) as [raw|x].
  2:{ unfold trace, ending. cbn [fst snd].
      split; [reflexivity|]. split; [|apply Herr].
      apply (Hno x [GetTableInfo; _]).
      rewrite !elem_of_cons, elem_of_nil. intros [H|[H|[]]]; discriminate H. }
  destruct (sqlparse_format (sanitize raw)) as [formatted_sql|x].
  2:{ unfold trace, ending. cbn [fst snd].
      split; [reflexivity|]. split; [|apply Herr].
      apply (Hno x [GetTableInfo; _]).
      rewrite !elem_of_cons, elem_of_nil. intros [H|[H|[]]]; discriminate H. }
  destruct (run db (sanitize raw)) as [result|x].
  2:{ unfold trace, ending. cbn [fst snd].
      split; [reflexivity|]. split; [|apply Herr].
      apply (Hno x (shown_and_run _ _ _)). unfold shown_and_run.
      rewrite !elem_of_cons, elem_of_nil.
      intros [H|[H|[H|[H|[H|[H|[]]]]]]]; discriminate H. }
  destruct (display_result_element result) as (e & -> & He).
  unfold trace, ending. cbn [fst snd]. split.
  - unfold shown_and_run. reflexivity.
  - intros body. unfold shown_and_run. cbn [app].
    rewrite !elem_of_cons, elem_of_nil.
    intros [H|[H|[H|[H|[H|[H|[H|[H|[H|[H|[]]]]]]]]]]];
      try discriminate H.
    subst e. discriminate He.
Qed.
End RunMore.

Lemma connected_run_completes_witness :
  ending (@main Reference.libraries rejecting_world) = Returned tt
  /\ exists before,
       trace (@main Reference.libraries rejecting_world)
       = before ++ trace (sidebar rejecting_db).
Proof.
  apply (@connected_run_completes Reference.libraries rejecting_world);
    try discriminate.
  reflexivity.
Defined.

Lemma success_message_iff_no_exception_witness :
  trace (@on_click Reference.libraries rejecting_world rejecting_db
           count_question)
  = generating
      :: trace (@generate_and_run Reference.libraries rejecting_world
                  rejecting_db count_question)
      ++ trace (on_exception
                  (ProgrammingError
                     (lit "(1064, 'You have an error in your SQL syntax')")))
  /\ (executed ∉ trace (@on_click Reference.libraries rejecting_world
                          rejecting_db count_question))
  /\ exists body,
       StError body
         ∈ trace (on_exception
                    (ProgrammingError
                       (lit "(1064, 'You have an error in your SQL syntax')"))).
Proof.
  apply (@success_message_iff_no_exception Reference.libraries
           rejecting_world rejecting_db count_question).
  vm_compute. reflexivity.
Defined.

(** ** The requests of a run *)

Section Requests.
Context {L : Libraries}.
Variable w : world.

Lemma count_event_app (f : event -> bool) (t t' : list event) :
  count_event f (t ++ t') = count_event f t + count_event f t'.
Proof. unfold count_event. by rewrite List.filter_app, length_app. Qed.

Lemma count_event_none (f : event -> bool) (t : list event) :
  Forall (fun e => f e = false) t -> count_event f t = 0.
Proof.
  unfold count_event. induction 1 as [|e t He _ IH]; [done|].
  simpl. by rewrite He.
Qed.

Lemma count_event_bystanders (f : event -> bool) (t : list event) :
  (forall e, f e = true -> is_query e = true) ->
  Forall bystander t -> count_event f t = 0.
Proof.
  intros Hf Ht. apply count_event_none.
  eapply Forall_impl; [exact Ht|]. intros e [Hq _]. simpl.
  destruct (f e) eqn:He; [|done]. apply Hf in He. congruence.
Qed.

(** A kind of query event that occurs at most once in the [try] body
    occurs at most once in the run. *)
Lemma count_event_main (f : event -> bool) :
  (forall e, f e = true -> is_query e = true) ->
  (forall db question,
     count_event f (trace (generate_and_run w db question)) <= 1) ->
  count_event f (trace (main w)) <= 1.
Proof.
  intros Hf Hbody.
  assert (Forall bystander preamble) as Hpre
    by (repeat (constructor; [solve_bystander|]); constructor).
  destruct (decide (password w = [])) as [Hp|Hp].
  { rewrite (main_no_password w Hp). unfold trace. cbn [fst].
    rewrite count_event_bystanders; [lia|done|].
    apply Forall_app. split; [done|].
    repeat (constructor; [solve_bystander|]); constructor. }
  destruct (decide (groq_api_key w = [])) as [Hk|Hk].
  { rewrite (main_no_api_key w Hp Hk). unfold trace. cbn [fst].
    rewrite count_event_bystanders; [lia|done|].
    apply Forall_app. split; [done|].
    repeat (constructor; [solve_bystander|]); constructor. }
  destruct (from_uri w (mysql_uri w (selectbox_value w))) as [db|x] eqn:Hc.
  2:{ rewrite (main_no_connection w x Hp Hk Hc). unfold trace. cbn [fst].
      rewrite count_event_bystanders; [lia|done|].
      apply Forall_app. split; [done|].
      repeat (constructor; [solve_bystander|]); constructor. }
  rewrite (main_connected w db Hp Hk Hc). unfold trace at 1. cbn [fst].
  rewrite !count_event_app.
  rewrite (count_event_bystanders f preamble Hf Hpre).
  rewrite (count_event_bystanders f (connected _ _ _) Hf)
    by (repeat (constructor; [solve_bystander|]); constructor).
  rewrite (count_event_bystanders f (trace (sidebar db)) Hf)
    by apply sidebar_events.
  destruct (button_clicked w); [|change (count_event f []) with 0; lia].
  rewrite on_click_unfolded.
  destruct (not_ (strip (text_input_value w))).
  { unfold trace. cbn [fst].
    rewrite count_event_bystanders; [lia|done|].
    repeat (constructor; [solve_bystander|]); constructor. }
  unfold trace at 1. cbn [fst].
  change (generating :: ?t) with ([generating] ++ t).
  rewrite !count_event_app.
  rewrite (count_event_bystanders f [generating] Hf)
    by (repeat (constructor; [solve_bystander|]); constructor).
  specialize (Hbody db (text_input_value w)).
  destruct (ending (generate_and_run w db (text_input_value w)))
    as [u|x|]; try (change (count_event f []) with 0; lia).
  rewrite (count_event_bystanders f (trace (on_exception x)) Hf)
    by apply on_exception_events.
  lia.
Qed.

(** In the [try] body each of its three requests is made at most once. *)
Lemma count_event_generate_and_run (f : event -> bool)
    (db : SQLDatabase) (question : str) :
  f = is_get_table_info \/ f = is_invoke \/ f = is_run ->
  count_event f (trace (generate_and_run w db question)) <= 1.
Proof.
  intros Hf. rewrite generate_and_run_unfolded.
  assert (forall e, is_display_element e = true -> f e = false) as Hd.
  { intros e He. destruct Hf as [->|[->| ->]]; by destruct e. }
  destruct (get_table_info db) as [schema|x].
  2:{ destruct Hf as [->|[->| ->]]; unfold trace; cbn; lia. }
  cbv zeta.
  destruct (chat_model w (prompt schema question) stop_sequences) as [raw|x].
  2:{ destruct Hf as [->|[->| ->]]; unfold trace; cbn -[lit]; lia. }
  destruct (sqlparse_format (sanitize raw)) as [formatted_sql|x].
  2:{ destruct Hf as [->|[->| ->]]; unfold trace; cbn -[lit]; lia. }
  destruct (run db (sanitize raw)) as [result|x].
  2:{ destruct Hf as [->|[->| ->]]; unfold trace; cbn -[lit]; lia. }
  destruct (display_result_element result) as (e & -> & He).
  apply Hd in He. unfold trace. cbn [fst].
  rewrite count_event_app.
  change (results_header :: [e] ++ [executed])
    with ([results_header] ++ [e] ++ [executed]).
  rewrite !count_event_app.
  rewrite (count_event_none f [e]) by (by constructor).
  destruct Hf as [->|[->| ->]]; cbn -[lit]; lia.
Qed.

(** X10. A run makes each request of the button's block at most once:
    the schema is read at most once, the model is called at most once and
    at most one statement is executed. Nothing is retried. *)
Theorem run_makes_each_request_once :
  count_event is_get_table_info (trace (main w)) <= 1
  /\ count_event is_invoke (trace (main w)) <= 1
  /\ count_event is_run (trace (main w)) <= 1.
Proof.
  repeat split; apply count_event_main;
    try (intros db question; apply count_event_generate_and_run; tauto);
    by intros [].
Qed.
End Requests.

(** ** From the question to the statement *)

Section Pipeline.
Context {L : Libraries}.
Variable w : world.

(** X11. What a run sends to the model is the template filled in with the
    schema the database gave for this run and the question as it was typed,
    white space included, together with the two stop sequences; and it is
    sent only after a click, with a question that is not blank. *)
Theorem model_request_is_filled_template (sent : str) (stop : list str) :
  Invoke sent stop ∈ trace (main w) ->
  exists db schema,
    from_uri w (mysql_uri w (selectbox_value w)) = Ok db
    /\ get_table_info db = Ok schema
    /\ sent = prompt schema (text_input_value w)
    /\ stop = stop_sequences
    /\ button_clicked w = true
    /\ not_ (strip (text_input_value w)) = false.
Proof.
  intros Hin.
  destruct (button_block_in_main w (Invoke sent stop))
    as (db & Hp & Hk & Hc & Hb & Hnb & Hg); [by intros [? _]|done|].
  exists db. rewrite generate_and_run_unfolded in Hg.
  destruct (get_table_info db) as [schema|x].
  2:{ apply list_elem_of_singleton in Hg. discriminate Hg. }
  exists schema. cbv zeta in Hg.
  assert (Invoke sent stop
            = Invoke (prompt schema (text_input_value w)) stop_sequences)
    as Heq.
  { destruct (chat_model w _ _) as [raw|x].
    2:{ unfold trace in Hg. cbn [fst] in Hg.
        rewrite !elem_of_cons, elem_of_nil in Hg.
        destruct Hg as [H|[H|[]]]; [discriminate H|exact H]. }
    destruct (sqlparse_format _) as [formatted_sql|x].
    2:{ unfold trace in Hg. cbn [fst] in Hg.
        rewrite !elem_of_cons, elem_of_nil in Hg.
        destruct Hg as [H|[H|[]]]; [discriminate H|exact H]. }
    destruct (run db _) as [result|x]; unfold trace in Hg; cbn [fst] in Hg.
    - destruct (display_result_element result) as (e & He & Hk').
      rewrite He in Hg. unfold shown_and_run, trace in Hg.
      cbn [app fst] in Hg. rewrite !elem_of_cons, elem_of_nil in Hg.
      destruct Hg as [H|[H|[H|[H|[H|[H|[H|[H|[H|[]]]]]]]]]];
        try discriminate H; [exact H|].
      subst e. discriminate Hk'.
    - unfold shown_and_run in Hg. rewrite !elem_of_cons, elem_of_nil in Hg.
      destruct Hg as [H|[H|[H|[H|[H|[H|[]]]]]]];
        try discriminate H; exact H. }
  injection Heq as -> ->. done.
Qed.

(** X12. When the schema is read, the model answers and the formatter
    accepts the cleaned answer, the cleaned answer is executed, whatever it
    is, the empty statement included: the run shows the formatted text and
    hands the cleaned one to the database, with no check of what the
    statement does. *)
Theorem cleaned_answer_is_executed
    (db : SQLDatabase) (schema raw formatted_sql : str) :
  password w <> [] -> groq_api_key w <> [] ->
  from_uri w (mysql_uri w (selectbox_value w)) = Ok db ->
  button_clicked w = true ->
  not_ (strip (text_input_value w)) = false ->
  get_table_info db = Ok schema ->
  chat_model w (prompt schema (text_input_value w)) stop_sequences = Ok raw ->
  sqlparse_format (sanitize raw) = Ok formatted_sql ->
  Run (sanitize raw) ∈ trace (main w)
  /\ StCode formatted_sql (Some (lit "sql")) ∈ trace (main w).
Proof.
  intros Hp Hk Hc Hb Hnb Hschema Hmodel Hformat.
  pose proof (fun e => generate_and_run_in_main w db e Hp Hk Hc Hb Hnb)
    as Hback.
  rewrite generate_and_run_unfolded, Hschema in Hback. cbv zeta in Hback.
  rewrite Hmodel, Hformat in Hback.
  assert (forall e,
            e ∈ shown_and_run
                  (Invoke (prompt schema (text_input_value w)) stop_sequences)
                  formatted_sql (sanitize raw) ->
            e ∈ trace (main w)) as Hshown.
  { intros e He. apply Hback.
    destruct (run db (sanitize raw)); unfold trace; cbn [fst]; [|done].
    apply elem_of_app. by left. }
  assert (Run (sanitize raw) ∈ trace (main w)) as Hrun.
  { apply Hshown. unfold shown_and_run. rewrite !elem_of_cons. auto 10. }
  split; [exact Hrun|].
  apply Hshown. unfold shown_and_run. rewrite !elem_of_cons. auto 10.
Qed.
End Pipeline.

Lemma model_request_is_filled_template_witness :
  exists db schema,
    from_uri (demo_world count_question)
      (@mysql_uri Reference.libraries (demo_world count_question)
         (lit "analytics")) = Ok db
    /\ get_table_info db = Ok schema
    /\ prompt (lit "CREATE TABLE customers (id INTEGER)") count_question
       = prompt schema count_question
    /\ stop_sequences = stop_sequences
    /\ button_clicked (demo_world count_question) = true
    /\ not_ (strip count_question) = false.
Proof.
  apply (@model_request_is_filled_template Reference.libraries
           (demo_world count_question)
           (prompt (lit "CREATE TABLE customers (id INTEGER)") count_question)
           stop_sequences).
  vm_compute.
  repeat first [apply list_elem_of_here | apply list_elem_of_further].
Defined.

Lemma cleaned_answer_is_executed_witness :
  Run (sanitize (lit "  "))
    ∈ trace (@main Reference.libraries blank_answer_world)
  /\ StCode [] (Some (lit "sql"))
       ∈ trace (@main Reference.libraries blank_answer_world).
Proof.
  apply (@cleaned_answer_is_executed Reference.libraries blank_answer_world
           demo_db (lit "CREATE TABLE customers (id INTEGER)") (lit "  ") []);
    try discriminate; reflexivity.
Defined.

(** ** The start-up, once more, and the side bar *)

Section Startup.
Context {L : Libraries}.
Variable w : world.

(** The side bar, element by element. *)
Lemma sidebar_unfolded (db : SQLDatabase) :
  sidebar db
  = (sidebar_help ++ sidebar_tables (get_usable_table_names db),
     Returned tt).
Proof.
  unfold sidebar.
  destruct (get_usable_table_names db) as [[|table tables]|e];
    [reflexivity| |reflexivity].
  set (names := table :: tables).
  cbn -[mapM lit pretty]. fold names.
  rewrite (mapM_emit (fun table => StWrite (VStr (bullet ++ lit " " ++ table)))).
  cbn -[lit pretty]. by rewrite app_nil_r.
Qed.

Lemma on_click_no_credential (db : SQLDatabase) (question : str) :
  Forall (fun e => uses_credential e = false) (trace (on_click w db question)).
Proof.
  rewrite on_click_unfolded.
  destruct (not_ (strip question)); [by repeat constructor|].
  unfold trace at 1. cbn [fst]. constructor; [done|].
  apply Forall_app. split.
  - rewrite generate_and_run_unfolded.
    destruct (get_table_info db) as [schema|x]; [|by repeat constructor].
    cbv zeta.
    destruct (chat_model w _ _) as [raw|x]; [|by repeat constructor].
    destruct (sqlparse_format _) as [formatted_sql|x];
      [|by repeat constructor].
    destruct (run db _) as [result|x]; [|by repeat constructor].
    destruct (display_result_one_element result) as (e & -> & _ & He & _).
    by repeat constructor.
  - destruct (ending (generate_and_run w db question)) as [u|x|];
      [constructor| |constructor].
    destruct (on_exception_elements x) as (b & h & ->).
    by repeat constructor.
Qed.

Lemma sidebar_no_credential (db : SQLDatabase) :
  Forall (fun e => uses_credential e = false) (trace (sidebar db)).
Proof.
  rewrite sidebar_unfolded. unfold trace. cbn [fst].
  apply Forall_app. split; [by repeat constructor|].
  destruct (get_usable_table_names db) as [[|table tables]|e];
    [by repeat constructor| |by repeat constructor].
  unfold sidebar_tables. do 2 (constructor; [done|]).
  by apply Forall_map, Forall_true.
Qed.

(** X13. The credentials are used only after both checks, and only as
    read from the environment: a connection is requested only with a
    password and an API key that are not empty, to the one address built
    from the environment and the selected schema; the model client is made
    only after that connection succeeded, with the API key of the
    environment. *)
Theorem credentials_used_after_checks (e : event) :
  uses_credential e = true -> e ∈ trace (main w) ->
  password w <> [] /\ groq_api_key w <> []
  /\ (e = FromUri (mysql_uri w (selectbox_value w))
      \/ (e = ChatGroq model_name (groq_api_key w)
          /\ exists db,
               from_uri w (mysql_uri w (selectbox_value w)) = Ok db)).
Proof.
  intros Hcred Hin.
  assert (forall t, Forall (fun e' => uses_credential e' = false) t -> e ∉ t)
    as Hnone.
  { intros t Ht He. rewrite Forall_forall in Ht.
    specialize (Ht e He). simpl in Ht. congruence. }
  assert (e ∉ preamble) as Hpre by (by apply Hnone; repeat constructor).
  destruct (decide (password w = [])) as [Hp|Hp].
  { rewrite (main_no_password w Hp) in Hin. exfalso. revert Hin.
    apply Hnone. by repeat constructor. }
  destruct (decide (groq_api_key w = [])) as [Hk|Hk].
  { rewrite (main_no_api_key w Hp Hk) in Hin. exfalso. revert Hin.
    apply Hnone. by repeat constructor. }
  do 2 (split; [done|]).
  destruct (from_uri w (mysql_uri w (selectbox_value w))) as [db|x] eqn:Hc.
  - rewrite (main_connected w db Hp Hk Hc) in Hin.
    unfold trace at 1 in Hin. cbn [fst] in Hin.
    rewrite !elem_of_app in Hin.
    destruct Hin as [Hin|[Hin|[Hin|Hin]]]; [done| | |].
    + unfold connected in Hin. rewrite !elem_of_cons, elem_of_nil in Hin.
      destruct Hin as [->|[->|[->|[->|[]]]]]; try discriminate Hcred;
        [by left|right; eauto].
    + exfalso. revert Hin. apply Hnone.
      destruct (button_clicked w); [apply on_click_no_credential|constructor].
    + exfalso. revert Hin. apply Hnone, sidebar_no_credential.
  - rewrite (main_no_connection w x Hp Hk Hc) in Hin.
    unfold trace in Hin. cbn [fst] in Hin.
    apply elem_of_app in Hin as [Hin|Hin]; [done|].
    unfold connection_failed in Hin.
    rewrite !elem_of_cons, elem_of_nil in Hin.
    destruct Hin as [->|[->|[->|[->|[]]]]]; try discriminate Hcred.
    by left.
Qed.

(** X14. When the connection cannot be made the run halts there: it shows
    the error with the text of the exception and a hint, and stops before
    the model client, the button and the side bar; no query is made. *)
Theorem connection_failure_halts (e : exn) :
  password w <> [] -> groq_api_key w <> [] ->
  from_uri w (mysql_uri w (selectbox_value w)) = Raise e ->
  main w
  = (preamble ++ connection_failed (mysql_uri w (selectbox_value w)) e,
     Stopped)
  /\ StError (cross_mark ++ lit " Failed to connect to database: "
                ++ exn_str e) ∈ trace (main w)
  /\ Forall (fun e' => is_query e' = false /\ e' <> trigger_button
                       /\ e' <> StSidebar
                       /\ forall model api_key, e' <> ChatGroq model api_key)
       (trace (main w)).
Proof.
  intros Hp Hk Hc. rewrite (main_no_connection w e Hp Hk Hc).
  split; [reflexivity|]. unfold trace. cbn [fst]. split.
  - apply elem_of_app. right. unfold connection_failed.
    rewrite !elem_of_cons. auto.
  - by repeat constructor.
Qed.

(** X15. Which message a halted start-up shows: the one for the password
    exactly when the password is unset or set to the empty text, whatever
    the API key is; the one for the API key exactly when the password is
    set and not empty and the API key is unset or empty. *)
Theorem missing_variable_messages :
  (main w = (preamble ++ password_missing, Stopped)
   <-> absent w "MYSQL_PASSWORD" \/ environ w !! "MYSQL_PASSWORD" = Some [])
  /\ (main w = (preamble ++ api_key_missing, Stopped)
      <-> (exists secret, environ w !! "MYSQL_PASSWORD" = Some secret
                          /\ secret <> [])
          /\ (absent w "GROQ_API_KEY"
              \/ environ w !! "GROQ_API_KEY" = Some [])).
Proof.
  assert (password w = []
          <-> absent w "MYSQL_PASSWORD"
              \/ environ w !! "MYSQL_PASSWORD" = Some []) as Hpw.
  { unfold password, getenv, absent.
    destruct (environ w !! "MYSQL_PASSWORD") as [v|]; [|tauto].
    split; [by intros ->; right|]. by intros [|[= ->]]. }
  assert (groq_api_key w = []
          <-> absent w "GROQ_API_KEY"
              \/ environ w !! "GROQ_API_KEY" = Some []) as Hkey.
  { unfold groq_api_key, getenv, absent.
    destruct (environ w !! "GROQ_API_KEY") as [v|]; [|tauto].
    split; [by intros ->; right|]. by intros [|[= ->]]. }
  assert (password w <> []
          <-> exists secret, environ w !! "MYSQL_PASSWORD" = Some secret
                             /\ secret <> []) as Hset.
  { unfold password, getenv.
    destruct (environ w !! "MYSQL_PASSWORD") as [v|].
    - split; [by exists v|]. by intros (? & [= <-] & ?).
    - split; [done|]. by intros (? & ? & _). }
  rewrite <- Hpw, <- Hkey, <- Hset.
  assert (forall t t' : list event,
            length t <> length t' -> preamble ++ t <> preamble ++ t') as Hlen.
  { intros t t' Hl Heq. apply app_inv_head in Heq. by subst. }
  destruct (decide (password w = [])) as [Hp|Hp].
  { rewrite (main_no_password w Hp). split; [tauto|].
    split; [|tauto]. intros Heq. apply (f_equal fst) in Heq.
    cbn [fst] in Heq. by apply Hlen in Heq. }
  destruct (decide (groq_api_key w = [])) as [Hk|Hk].
  { rewrite (main_no_api_key w Hp Hk). split; [|tauto].
    split; [|tauto]. intros Heq. apply (f_equal fst) in Heq.
    cbn [fst] in Heq. by apply Hlen in Heq. }
  destruct (from_uri w (mysql_uri w (selectbox_value w))) as [db|x] eqn:Hc.
  - rewrite (main_connected w db Hp Hk Hc). split; split; try tauto; done.
  - rewrite (main_no_connection w x Hp Hk Hc).
    split; (split; [|tauto]); intros Heq; apply (f_equal fst) in Heq;
      cbn [fst] in Heq; apply app_inv_head in Heq; discriminate Heq.
Qed.

Lemma filter_cons_false (f : event -> bool) (e : event) (t : list event) :
  f e = false -> List.filter f (e :: t) = List.filter f t.
Proof. intros H. simpl. by rewrite H. Qed.

Lemma filter_table_lines (tables : list str) :
  List.filter is_table_line (map table_line tables) = map table_line tables.
Proof.
  induction tables as [|table tables IH]; [done|].
  cbn [map List.filter]. rewrite IH. reflexivity.
Qed.

(** X16. The side bar never fails, whatever the database answers: the
    bulleted lines it shows are the table names, each once and in the order
    the database gives them, under a line with their number; with no table
    it shows a warning, and when the database raises it shows a line of
    text instead, and no bulleted line in either case. *)
Theorem sidebar_lists_every_table (db : SQLDatabase) :
  ending (sidebar db) = Returned tt
  /\ List.filter is_table_line (trace (sidebar db))
     = match get_usable_table_names db with
       | Ok tables => map table_line tables
       | Raise _ => []
       end
  /\ match get_usable_table_names db with
     | Ok [] =>
         StWarning (warning_sign ++ lit " No tables found in this database")
           ∈ trace (sidebar db)
     | Ok tables =>
         StWrite (VStr (clipboard ++ lit " Available tables: "
                          ++ lit (pretty (length tables))))
           ∈ trace (sidebar db)
     | Raise _ =>
         last (trace (sidebar db))
         = Some (StWrite (VStr (lit "Connect to a database to see tables")))
     end.
Proof.
  rewrite sidebar_unfolded. split; [reflexivity|].
  unfold trace. cbn [fst]. rewrite List.filter_app.
  destruct (get_usable_table_names db) as [[|table tables]|e].
  - split; [reflexivity|]. apply elem_of_app. right. apply list_elem_of_here.
  - split.
    + assert (List.filter is_table_line sidebar_help = []) as ->
        by reflexivity.
      unfold sidebar_tables. set (names := table :: tables).
      rewrite !filter_cons_false by reflexivity.
      apply filter_table_lines.
    + apply elem_of_app. right. apply list_elem_of_here.
  - split; [reflexivity|]. unfold sidebar_tables.
    by rewrite last_snoc.
Qed.
End Startup.

Lemma credentials_used_after_checks_witness :
  password offline_world <> [] /\ groq_api_key offline_world <> []
  /\ (FromUri (@mysql_uri Reference.libraries offline_world (lit "e_commerce"))
      = FromUri (@mysql_uri Reference.libraries offline_world
                   (selectbox_value offline_world))
      \/ (FromUri (@mysql_uri Reference.libraries offline_world
                     (lit "e_commerce"))
          = ChatGroq model_name (groq_api_key offline_world)
          /\ exists db,
               from_uri offline_world
                 (@mysql_uri Reference.libraries offline_world
                    (selectbox_value offline_world)) = Ok db)).
Proof.
  apply (@credentials_used_after_checks Reference.libraries offline_world
           (FromUri (@mysql_uri Reference.libraries offline_world
                       (lit "e_commerce")))).
  - reflexivity.
  - vm_compute.
    repeat first [apply list_elem_of_here | apply list_elem_of_further].
Defined.

Lemma connection_failure_halts_witness :
  @main Reference.libraries offline_world
  = (preamble
       ++ connection_failed
            (@mysql_uri Reference.libraries offline_world
               (selectbox_value offline_world))
            (OperationalError (lit "(2003, 'Can not connect to MySQL server')")),
     Stopped)
  /\ StError (cross_mark ++ lit " Failed to connect to database: "
                ++ lit "(2003, 'Can not connect to MySQL server')")
       ∈ trace (@main Reference.libraries offline_world)
  /\ Forall (fun e' => is_query e' = false /\ e' <> trigger_button
                       /\ e' <> StSidebar
                       /\ forall model api_key, e' <> ChatGroq model api_key)
       (trace (@main Reference.libraries offline_world)).
Proof.
  apply (@connection_failure_halts Reference.libraries offline_world
           (OperationalError (lit "(2003, 'Can not connect to MySQL server')")));
    try discriminate.
  reflexivity.
Defined.
